(** * Business-day arithmetic of [excel_date_functions.py]

    A shallow embedding of [networkdays], [workday] and [work_dates] and of
    the three NumPy entry points they delegate to ([np.busday_count],
    [np.busday_offset] and [np.array(..., dtype = 'object').flatten()]).

    Conventions.
    - A [datetime64[D]] value is a day number counted from 1970-01-01 (a
      Thursday), or [NaT].  Day numbers are unbounded integers here; NumPy
      stores them in 64 bits.
    - [feriados()] reads a cached file; it is the list [hol] every function
      takes.  The list needs to be neither sorted nor free of duplicates
      (NumPy normalises it before use; only membership matters).
    - Inputs are the already flattened one-dimensional arrays of dates that
      [np.array(x).flatten()] produces.
    - Roll tokens are byte strings; [str.lower] is modelled on ASCII. *)

From Stdlib Require Import ZArith List Bool String Ascii Lia.
Import ListNotations.
Local Open Scope string_scope.
Local Open Scope Z_scope.

(** ** Values and failures *)

Inductive datetime64 : Type :=
| NaT
| Day (z : Z).

Inductive error : Type :=
| IncompatibleLength (m n : nat)  (* the ValueError of lines 57 and 119 *)
| InhomogeneousShape (m n : nat)  (* np.array([a, b]) on rows of unequal length *)
| InvalidRoll (token : string)    (* NumPy: invalid business day roll parameter *)
| NaTInCount                      (* NumPy: business day count with a NaT *)
| NaTInOffset                     (* NumPy: NaT input, roll = 'raise' *)
| NonBusinessDay                  (* NumPy: non-business day, roll = 'raise' *)
| IndexOutOfBounds.               (* Python: index 0 of an empty array *)

Inductive result (A : Type) : Type :=
| Ok (a : A)
| Err (e : error).

Arguments Ok {A} a.
Arguments Err {A} e.

Definition bind {A B : Type} (r : result A) (k : A -> result B) : result B :=
  match r with
  | Ok a => k a
  | Err e => Err e
  end.

Notation "x <- r ;; k" := (bind r (fun x => k))
  (at level 61, r at next level, right associativity).
Notation "' p <- r ;; k" := (bind r (fun p => k))
  (at level 61, p pattern, r at next level, right associativity).

(** Left-to-right traversal that stops at the first failure, as a Python
    loop or comprehension does when an iteration raises. *)
Fixpoint mapM {A B : Type} (f : A -> result B) (l : list A) : result (list B) :=
  match l with
  | [] => Ok []
  | a :: l' => b <- f a ;; bs <- mapM f l' ;; Ok (b :: bs)
  end.

(** Python's [range(k)]. *)
Definition range (k : Z) : list Z := map Z.of_nat (seq 0 (Z.to_nat k)).

(** ** The NumPy business-day calendar (weekmask ['1111100'])

    NumPy is a library the file imports, not part of it: the definitions
    of this module follow NumPy's documented behaviour (version 1.25 and
    later), day by day, without the whole-week shortcuts of its C code. *)

Module Np.

(** Monday is 0; day 0 (1970-01-01) is a Thursday. *)
Definition get_day_of_week (d : Z) : Z := (d - 4) mod 7.

Definition is_weekend (d : Z) : bool := 5 <=? get_day_of_week d.

Definition is_holiday (hol : list Z) (d : Z) : bool := existsb (Z.eqb d) hol.

Definition is_busday (hol : list Z) (d : Z) : bool :=
  negb (is_weekend d) && negb (is_holiday hol d).

(** Month number (0 = January) of a day number, by the usual 400-year
    cycle arithmetic on a year that starts in March. *)
Definition days_to_month_number (d : Z) : Z :=
  let z := d + 719468 in
  let era := z / 146097 in
  let doe := z - era * 146097 in
  let yoe := (doe - doe / 1460 + doe / 36524 - doe / 146096) / 365 in
  let doy := doe - (365 * yoe + yoe / 4 - yoe / 100) in
  let mp := (5 * doy + 2) / 153 in
  if mp <? 10 then mp + 2 else mp - 10.

(** *** np.busday_count *)

(** Business days among the [n] days [d], [d+1], ..., [d+n-1]. *)
Fixpoint count_from (hol : list Z) (d : Z) (n : nat) : Z :=
  match n with
  | O => 0
  | S n' => (if is_busday hol d then 1 else 0) + count_from hol (d + 1) n'
  end.

(** One pair of dates.  The end date is never counted: for [b <= e] the
    days are [b <= x < e]; for [e < b] the dates are swapped, both moved one
    day later, and the count negated, so the days are [e < x <= b]
    (NumPy 1.25 and later). *)
Definition busday_count1 (hol : list Z) (b e : datetime64) : result Z :=
  match b, e with
  | Day b, Day e =>
      if b =? e then Ok 0
      else if b <? e then Ok (count_from hol b (Z.to_nat (e - b)))
      else Ok (- count_from hol (e + 1) (Z.to_nat (b - e)))
  | _, _ => Err NaTInCount
  end.

(** Before NumPy 1.25 a reversed pair was swapped without the one-day
    move, so the days counted were [e <= x < b]. *)
Definition busday_count1_legacy (hol : list Z) (b e : datetime64) : result Z :=
  match b, e with
  | Day b, Day e =>
      if b =? e then Ok 0
      else if b <? e then Ok (count_from hol b (Z.to_nat (e - b)))
      else Ok (- count_from hol e (Z.to_nat (b - e)))
  | _, _ => Err NaTInCount
  end.

Definition busday_count (hol : list Z) (bs es : list datetime64) : result (list Z) :=
  mapM (fun p => busday_count1 hol (fst p) (snd p)) (combine bs es).

(** *** np.busday_offset *)

Inductive roll : Type :=
| Raise | RollNaT
| Forward | Following | Backward | Preceding
| ModifiedFollowing | ModifiedPreceding.

(** The roll converter compares the token with [strcmp]: exact spelling,
    lower case only. *)
Definition roll_converter (token : string) : result roll :=
  if String.eqb token "raise" then Ok Raise
  else if String.eqb token "nat" then Ok RollNaT
  else if String.eqb token "forward" then Ok Forward
  else if String.eqb token "following" then Ok Following
  else if String.eqb token "backward" then Ok Backward
  else if String.eqb token "preceding" then Ok Preceding
  else if String.eqb token "modifiedfollowing" then Ok ModifiedFollowing
  else if String.eqb token "modifiedpreceding" then Ok ModifiedPreceding
  else Err (InvalidRoll token).

(** The loop [do { date += step } while (not a business day)], entered at
    [d]: the first business day among [d], [d+step], ...  The fuel bounds
    the number of days looked at. *)
Fixpoint seek (hol : list Z) (step : Z) (fuel : nat) (d : Z) : Z :=
  match fuel with
  | O => d
  | S fuel' => if is_busday hol d then d else seek hol step fuel' (d + step)
  end.

(** Three days for every holiday and three more always contain a business
    day (see [seek_fuel_enough]). *)
Definition fuel (hol : list Z) : nat := 3 * List.length hol + 3.

Definition next_busday (hol : list Z) (d : Z) : Z := seek hol 1 (fuel hol) (d + 1).
Definition prev_busday (hol : list Z) (d : Z) : Z := seek hol (-1) (fuel hol) (d - 1).

Definition apply_business_day_roll (hol : list Z) (r : roll) (date : datetime64)
  : result datetime64 :=
  match date with
  | NaT => match r with Raise => Err NaTInOffset | _ => Ok NaT end
  | Day d =>
      if is_busday hol d then Ok (Day d)
      else
        match r with
        | Forward | Following => Ok (Day (next_busday hol d))
        | Backward | Preceding => Ok (Day (prev_busday hol d))
        | ModifiedFollowing =>
            let d' := next_busday hol d in
            if days_to_month_number d =? days_to_month_number d'
            then Ok (Day d') else Ok (Day (prev_busday hol d))
        | ModifiedPreceding =>
            let d' := prev_busday hol d in
            if days_to_month_number d =? days_to_month_number d'
            then Ok (Day d') else Ok (Day (next_busday hol d))
        | RollNaT => Ok NaT
        | Raise => Err NonBusinessDay
        end
  end.

(** [n] steps, each to the adjacent business day. *)
Fixpoint steps (f : Z -> Z) (n : nat) (d : Z) : Z :=
  match n with
  | O => d
  | S n' => steps f n' (f d)
  end.

Definition shift (hol : list Z) (d offset : Z) : Z :=
  if 0 <? offset then steps (next_busday hol) (Z.to_nat offset) d
  else if offset <? 0 then steps (prev_busday hol) (Z.to_nat (- offset)) d
  else d.

Definition apply_business_day_offset (hol : list Z) (r : roll) (offset : Z)
    (date : datetime64) : result datetime64 :=
  rolled <- apply_business_day_roll hol r date ;;
  match rolled with
  | NaT => Ok NaT
  | Day d => Ok (Day (shift hol d offset))
  end.

(** The arguments are converted first, so an unknown token fails even on
    an empty array. *)
Definition busday_offset (hol : list Z) (dates : list datetime64) (offset : Z)
    (token : string) : result (list datetime64) :=
  r <- roll_converter token ;;
  mapM (apply_business_day_offset hol r offset) dates.

(** *** np.array(rows, dtype = 'object').flatten() *)

(** An element of an object array is a scalar or, when the rows could not
    be stacked, a whole row. *)
Inductive cell : Type :=
| Scalar (d : datetime64)
| Nested (row : list datetime64).

Definition same_length (rows : list (list datetime64)) : bool :=
  match rows with
  | [] => true
  | r :: rows' => forallb (fun r' => Nat.eqb (List.length r') (List.length r)) rows'
  end.

(** Rows of one common length stack into a two-dimensional array, which
    [flatten] reads row by row; rows of different lengths give a
    one-dimensional array whose elements are the rows, which [flatten]
    leaves alone. *)
Definition flatten_object (rows : list (list datetime64)) : list cell :=
  if same_length rows then map Scalar (List.concat rows) else map Nested rows.

End Np.

(** ** The functions of [excel_date_functions.py] *)

(** [str.lower] on ASCII letters. *)
Definition lower_ascii (c : ascii) : ascii :=
  let n := nat_of_ascii c in
  if ((65 <=? n) && (n <=? 90))%nat then ascii_of_nat (n + 32) else c.

Fixpoint lower (s : string) : string :=
  match s with
  | EmptyString => EmptyString
  | String c s' => String (lower_ascii c) (lower s')
  end.

(** [np.repeat(a, n)]: every element [n] times. *)
Definition np_repeat (a : list datetime64) (n : nat) : list datetime64 :=
  flat_map (fun x => List.repeat x n) a.

(** [x, y = np.array([a, b]).astype('datetime64[D]')]: the two rows must
    have one length. *)
Definition stack2 (a b : list datetime64)
  : result (list datetime64 * list datetime64) :=
  if Nat.eqb (List.length a) (List.length b) then Ok (a, b)
  else Err (InhomogeneousShape (List.length a) (List.length b)).

(** Lines 50-60 of [networkdays], repeated word for word as lines 112-122
    of [work_dates]. *)
Definition broadcast (data_inicial data_final : list datetime64)
  : result (list datetime64 * list datetime64) :=
  let m := List.length data_inicial in
  let n := List.length data_final in
  '(a, b) <-
    (if negb (Nat.eqb m n) then
       if Nat.eqb m 1 then Ok (np_repeat data_inicial n, data_final)
       else if Nat.eqb n 1 then Ok (data_inicial, np_repeat data_final m)
       else if (Nat.ltb 1 m && Nat.ltb 1 n)%bool then Err (IncompatibleLength m n)
       else Ok (data_inicial, data_final)
     else Ok (data_inicial, data_final)) ;;
  stack2 a b.

Section Calendar.

(** The array [feriados()] returns. *)
Variable hol : list Z.

Definition networkdays (data_inicial data_final : list datetime64)
  : result (list Z) :=
  '(a, b) <- broadcast data_inicial data_final ;;
  Np.busday_count hol a b.

Definition workday (data_inicial : list datetime64) (dias_uteis : Z)
    (rolagem : string) : result (list datetime64) :=
  let rolagem := if String.eqb (lower rolagem) "posterior" then "forward" else rolagem in
  let rolagem := if String.eqb (lower rolagem) "anterior" then "backward" else rolagem in
  Np.busday_offset hol data_inicial dias_uteis rolagem.

(** The default of [workday]'s third parameter. *)
Definition rolagem_default : string := "posterior".

(** Lines 105-106: the comparison is exact, [rolagem] is not lowered. *)
Definition translate (rolagem : option string) : option string :=
  let rolagem :=
    match rolagem with
    | Some r => if String.eqb r "posterior" then Some "forward" else rolagem
    | None => None
    end in
  match rolagem with
  | Some r => if String.eqb r "anterior" then Some "backward" else rolagem
  | None => None
  end.

(** Lines 124-128: both arrays rolled by [np.busday_offset] with offset 0;
    no [holidays] argument is passed, so the calendar is the default one,
    without holidays. *)
Definition work_dates_roll (rolagem : option string)
    (data_inicial data_final : list datetime64)
  : result (list datetime64 * list datetime64) :=
  match rolagem with
  | None => Ok (data_inicial, data_final)
  | Some r =>
      a <- Np.busday_offset [] data_inicial 0 r ;;
      b <- Np.busday_offset [] data_final 0 r ;;
      Ok (a, b)
  end.

(** Line 135, the body of the loop: the dates of one pair. *)
Definition pair_dates (di df : datetime64) : result (list datetime64) :=
  ns <- networkdays [di] [df] ;;
  match ns with
  | [] => Err IndexOutOfBounds
  | n :: _ =>
      rows <- mapM (fun i => workday [di] i rolagem_default) (range (n + 1)) ;;
      Ok (List.concat rows)
  end.

(** The aligned pairs the loop of line 133 runs over. *)
Definition work_dates_pairs (data_inicial data_final : list datetime64)
    (rolagem : option string) : result (list (datetime64 * datetime64)) :=
  '(a, b) <- broadcast data_inicial data_final ;;
  '(a, b) <- work_dates_roll (translate rolagem) a b ;;
  Ok (combine a b).

(** [matriz_resposta] when the loop ends (line 137). *)
Definition work_dates_rows (data_inicial data_final : list datetime64)
    (rolagem : option string) : result (list (list datetime64)) :=
  pairs <- work_dates_pairs data_inicial data_final rolagem ;;
  mapM (fun p => pair_dates (fst p) (snd p)) pairs.

Definition work_dates (data_inicial data_final : list datetime64)
    (rolagem : option string) : result (list Np.cell) :=
  rows <- work_dates_rows data_inicial data_final rolagem ;;
  Ok (Np.flatten_object rows).

End Calendar.

(** ** Vocabulary of the statements *)

(** The failure raised for two lengths that cannot be broadcast. *)
Definition length_error (e : error) : Prop :=
  match e with
  | IncompatibleLength _ _ => True
  | _ => False
  end.

(** The tokens [workday] does not reject: the two Portuguese words in any
    letter case, and the eight words of NumPy's roll converter as they are
    spelled. *)
Definition accepted (rolagem : string) : bool :=
  String.eqb (lower rolagem) "posterior" || String.eqb (lower rolagem) "anterior"
  || String.eqb rolagem "raise" || String.eqb rolagem "nat"
  || String.eqb rolagem "forward" || String.eqb rolagem "following"
  || String.eqb rolagem "backward" || String.eqb rolagem "preceding"
  || String.eqb rolagem "modifiedfollowing"
  || String.eqb rolagem "modifiedpreceding".

(** The date [np.busday_offset] counts from under the forward roll, and
    under the backward roll. *)
Definition snap_forward (hol : list Z) (d : Z) : Z :=
  if Np.is_busday hol d then d else Np.next_busday hol d.

Definition snap_backward (hol : list Z) (d : Z) : Z :=
  if Np.is_busday hol d then d else Np.prev_busday hol d.

(** A date that is present and a business day. *)
Definition business_date (hol : list Z) (x : datetime64) : Prop :=
  match x with
  | Day z => Np.is_busday hol z = true
  | NaT => False
  end.

(** The dates held by a cell of the result of [work_dates]. *)
Definition cell_dates (c : Np.cell) : list datetime64 :=
  match c with
  | Np.Scalar x => [x]
  | Np.Nested row => row
  end.

(** Holidays on or beyond [d] in the direction [s]. *)
Definition ahead (s d : Z) (hol : list Z) : list Z :=
  filter (fun h => 0 <=? s * (h - d)) hol.

(** The [n] consecutive days from [d] on. *)
Fixpoint days (d : Z) (n : nat) : list Z :=
  match n with
  | O => []
  | S n' => d :: days (d + 1) n'
  end.

(** The business days from [s] to [e], both included, in increasing
    order. *)
Definition business_days (hol : list Z) (s e : Z) : list Z :=
  filter (Np.is_busday hol) (days s (Z.to_nat (e - s + 1))).

(** The count that the docstring of [networkdays] promises, the one of
    Excel's NETWORKDAYS, for a start not after the end: the number of
    business days from start to end, both included. *)
Definition networkdays_inclusive (hol : list Z) (s e : Z) : Z :=
  Z.of_nat (List.length (business_days hol s e)).

(** Two holiday arrays that hold the same weekdays. *)
Definition same_weekday_holidays (hol hol' : list Z) : Prop :=
  forall d, Np.is_weekend d = false -> (In d hol <-> In d hol').

(** ** The calendar: weekends, holidays and the search for a business day *)

Module NpFacts.
Import Np.

Ltac weekday_arith :=
  unfold is_weekend, get_day_of_week in *;
  repeat match goal with
         | H : (_ <=? _) = true |- _ => apply Z.leb_le in H
         | H : (_ <=? _) = false |- _ => apply Z.leb_gt in H
         | |- (_ <=? _) = true => apply Z.leb_le
         | |- (_ <=? _) = false => apply Z.leb_gt
         end;
  Z.div_mod_to_equations; lia.

Lemma is_holiday_In hol d : is_holiday hol d = true <-> In d hol.
Proof.
  unfold is_holiday. rewrite existsb_exists. split.
  - intros [h [Hin Heq]]. apply Z.eqb_eq in Heq. now subst.
  - intros Hin. exists d. split; [assumption | apply Z.eqb_refl].
Qed.

Lemma is_busday_true hol d :
  is_busday hol d = true <-> is_weekend d = false /\ is_holiday hol d = false.
Proof.
  unfold is_busday. rewrite andb_true_iff, !negb_true_iff. tauto.
Qed.

Lemma is_busday_not_weekend hol d : is_busday hol d = true -> is_weekend d = false.
Proof. intros H. now apply is_busday_true in H. Qed.

Lemma is_busday_nil d : is_busday [] d = negb (is_weekend d).
Proof. unfold is_busday. simpl. now rewrite andb_true_r. Qed.

(** Within three consecutive days, in either direction, one is a weekday. *)
Lemma weekday_within_three s d :
  s = 1 \/ s = -1 ->
  exists k : nat, (k < 3)%nat /\ is_weekend (d + s * Z.of_nat k) = false.
Proof.
  intros Hs.
  destruct (is_weekend d) eqn:H0; [| exists 0%nat; split; [lia |];
    now replace (d + s * Z.of_nat 0) with d by lia].
  destruct (is_weekend (d + s)) eqn:H1; [| exists 1%nat; split; [lia |];
    now replace (d + s * Z.of_nat 1) with (d + s) by lia].
  exists 2%nat. split; [lia |].
  replace (d + s * Z.of_nat 2) with (d + s + s) by lia.
  destruct Hs; subst s; weekday_arith.
Qed.

Lemma ahead_length hol s d : (List.length (ahead s d hol) <= List.length hol)%nat.
Proof.
  unfold ahead. induction hol as [| h hol IH]; simpl; [lia |].
  destruct (0 <=? s * (h - d)); simpl; lia.
Qed.

Lemma ahead_shrinks hol s d d' :
  s = 1 \/ s = -1 -> 0 <= s * (d' - d) -> In d' hol ->
  (List.length (ahead s (d' + s) hol) < List.length (ahead s d hol))%nat.
Proof.
  intros Hs Hge.
  induction hol as [| h hol IH]; simpl; [tauto |].
  assert (Hmono : (List.length (ahead s (d' + s) hol)
                   <= List.length (ahead s d hol))%nat); unfold ahead.
  { clear IH. induction hol as [| x hol IH]; simpl; [lia |].
    destruct (0 <=? s * (x - (d' + s))) eqn:E1;
      destruct (0 <=? s * (x - d)) eqn:E2; simpl; lia. }
  unfold ahead in *. intros [Heq | Hin].
  - subst h.
    replace (0 <=? s * (d' - (d' + s))) with false
      by (symmetry; apply Z.leb_gt; destruct Hs; subst s; lia).
    replace (0 <=? s * (d' - d)) with true by (symmetry; now apply Z.leb_le).
    simpl. lia.
  - specialize (IH Hin).
    destruct (0 <=? s * (h - (d' + s))) eqn:E1;
      destruct (0 <=? s * (h - d)) eqn:E2; simpl; lia.
Qed.

(** A business day lies within [3 n + 3] days when at most [n] holidays
    are ahead. *)
Lemma busday_within hol s :
  s = 1 \/ s = -1 ->
  forall (n : nat) (d : Z),
    (List.length (ahead s d hol) <= n)%nat ->
    exists k : nat, (k < 3 * n + 3)%nat /\ is_busday hol (d + s * Z.of_nat k) = true.
Proof.
  intros Hs. induction n as [| n IH]; intros d Hn;
    destruct (weekday_within_three s d Hs) as [k0 [Hk0 Hwd]];
    (destruct (is_holiday hol (d + s * Z.of_nat k0)) eqn:Hh;
     [| exists k0; split; [lia | now apply is_busday_true]]);
    apply is_holiday_In in Hh;
    assert (Hlt := ahead_shrinks hol s d (d + s * Z.of_nat k0) Hs
                     ltac:(destruct Hs; subst s; lia) Hh).
  - lia.
  - destruct (IH (d + s * Z.of_nat k0 + s) ltac:(lia)) as [k [Hk Hb]].
    exists (k0 + 1 + k)%nat. split; [lia |].
    replace (d + s * Z.of_nat (k0 + 1 + k))
      with (d + s * Z.of_nat k0 + s + s * Z.of_nat k) by lia.
    exact Hb.
Qed.

(** [seek] returns the first business day it meets, if it meets one
    before the fuel runs out. *)
Lemma seek_first hol s :
  forall (n k : nat) (d : Z),
    (k < n)%nat -> is_busday hol (d + s * Z.of_nat k) = true ->
    exists j : nat,
      (j <= k)%nat /\ seek hol s n d = d + s * Z.of_nat j /\
      is_busday hol (d + s * Z.of_nat j) = true /\
      forall i : nat, (i < j)%nat -> is_busday hol (d + s * Z.of_nat i) = false.
Proof.
  induction n as [| n IH]; intros k d Hk Hb; [lia |].
  simpl. destruct (is_busday hol d) eqn:Hd.
  - exists 0%nat. replace (d + s * Z.of_nat 0) with d by lia.
    repeat split; [lia | assumption | intros i Hi; lia].
  - destruct k as [| k].
    + replace (d + s * Z.of_nat 0) with d in Hb by lia. congruence.
    + destruct (IH k (d + s) ltac:(lia)) as [j [Hj [Hseek [Hbj Hmin]]]].
      { now replace (d + s + s * Z.of_nat k) with (d + s * Z.of_nat (S k)) by lia. }
      exists (S j). repeat split.
      * lia.
      * rewrite Hseek. lia.
      * now replace (d + s * Z.of_nat (S j)) with (d + s + s * Z.of_nat j) by lia.
      * intros [| i] Hi.
        -- now replace (d + s * Z.of_nat 0) with d by lia.
        -- replace (d + s * Z.of_nat (S i)) with (d + s + s * Z.of_nat i) by lia.
           apply Hmin. lia.
Qed.

(** The fuel of [next_busday] and [prev_busday] is never exhausted. *)
Lemma seek_fuel_enough hol s d :
  s = 1 \/ s = -1 ->
  exists j : nat,
    seek hol s (fuel hol) d = d + s * Z.of_nat j /\
    is_busday hol (d + s * Z.of_nat j) = true /\
    forall i : nat, (i < j)%nat -> is_busday hol (d + s * Z.of_nat i) = false.
Proof.
  intros Hs.
  destruct (busday_within hol s Hs (List.length hol) d (ahead_length hol s d))
    as [k [Hk Hb]].
  destruct (seek_first hol s (fuel hol) k d Hk Hb) as [j [_ H]].
  now exists j.
Qed.

Lemma next_busday_spec hol d :
  d < next_busday hol d /\
  is_busday hol (next_busday hol d) = true /\
  forall x, d < x < next_busday hol d -> is_busday hol x = false.
Proof.
  unfold next_busday.
  destruct (seek_fuel_enough hol 1 (d + 1) (or_introl eq_refl))
    as [j [Hseek [Hb Hmin]]].
  rewrite Hseek. repeat split; [lia | assumption |].
  intros x Hx.
  replace x with (d + 1 + 1 * Z.of_nat (Z.to_nat (x - d - 1))) by lia.
  apply Hmin. lia.
Qed.

Lemma prev_busday_spec hol d :
  prev_busday hol d < d /\
  is_busday hol (prev_busday hol d) = true /\
  forall x, prev_busday hol d < x < d -> is_busday hol x = false.
Proof.
  unfold prev_busday.
  destruct (seek_fuel_enough hol (-1) (d - 1) (or_intror eq_refl))
    as [j [Hseek [Hb Hmin]]].
  rewrite Hseek. repeat split; [lia | assumption |].
  intros x Hx.
  replace x with (d - 1 + -1 * Z.of_nat (Z.to_nat (d - 1 - x))) by lia.
  apply Hmin. lia.
Qed.

Lemma steps_busday hol f :
  (forall d, is_busday hol (f d) = true) ->
  forall n d, is_busday hol d = true -> is_busday hol (steps f n d) = true.
Proof.
  intros Hf. induction n as [| n IH]; intros d Hd; simpl; auto.
Qed.

(** Shifting a business day lands on a business day. *)
Lemma shift_busday hol d offset :
  is_busday hol d = true -> is_busday hol (shift hol d offset) = true.
Proof.
  intros Hd. unfold shift.
  destruct (0 <? offset); [| destruct (offset <? 0)]; try assumption;
    apply steps_busday; try assumption; intros x.
  - apply next_busday_spec.
  - apply prev_busday_spec.
Qed.

Lemma shift_0 hol d : shift hol d 0 = d.
Proof. reflexivity. Qed.

(** *** Counting *)

Lemma count_from_app hol n m : forall d,
  count_from hol d (n + m) =
  count_from hol d n + count_from hol (d + Z.of_nat n) m.
Proof.
  induction n as [| n IH]; intros d.
  - simpl. now replace (d + 0) with d by lia.
  - cbn [Nat.add count_from]. rewrite IH.
    replace (d + 1 + Z.of_nat n) with (d + Z.of_nat (S n)) by lia. lia.
Qed.

Lemma count_from_snoc hol n d :
  count_from hol d (S n) =
  count_from hol d n + (if is_busday hol (d + Z.of_nat n) then 1 else 0).
Proof.
  replace (S n) with (n + 1)%nat by lia. rewrite count_from_app. simpl. lia.
Qed.

Lemma count_from_nonneg hol n : forall d, 0 <= count_from hol d n.
Proof.
  induction n as [| n IH]; intros d; simpl; [lia |].
  specialize (IH (d + 1)). destruct (is_busday hol d); lia.
Qed.

Lemma count_from_none hol n : forall d,
  (forall x, d <= x < d + Z.of_nat n -> is_busday hol x = false) ->
  count_from hol d n = 0.
Proof.
  induction n as [| n IH]; intros d Hnone; simpl; [reflexivity |].
  rewrite (Hnone d) by lia. rewrite IH; [reflexivity |].
  intros x Hx. apply Hnone. lia.
Qed.

(** From a business day up to, and without, the next one: one day. *)
Lemma count_to_next hol d :
  is_busday hol d = true ->
  count_from hol d (Z.to_nat (next_busday hol d - d)) = 1.
Proof.
  intros Hd. destruct (next_busday_spec hol d) as [Hlt [_ Hnone]].
  replace (Z.to_nat (next_busday hol d - d))
    with (S (Z.to_nat (next_busday hol d - d - 1))) by lia.
  simpl. rewrite Hd. rewrite count_from_none; [reflexivity |].
  intros x Hx. apply Hnone. lia.
Qed.

(** [n] steps forward from a business day pass exactly [n] business days,
    the last one reached not counted. *)
Lemma count_steps_next hol n : forall d,
  is_busday hol d = true ->
  d <= steps (next_busday hol) n d /\
  count_from hol d (Z.to_nat (steps (next_busday hol) n d - d)) = Z.of_nat n.
Proof.
  induction n as [| n IH]; intros d Hd.
  - simpl. split; [lia |]. now replace (d - d) with 0 by lia.
  - cbn [steps].
    destruct (next_busday_spec hol d) as [Hlt [Hb _]].
    destruct (IH _ Hb) as [Hle Hcount].
    split; [lia |].
    replace (Z.to_nat (steps (next_busday hol) n (next_busday hol d) - d))
      with (Z.to_nat (next_busday hol d - d)
            + Z.to_nat (steps (next_busday hol) n (next_busday hol d)
                        - next_busday hol d))%nat by lia.
    rewrite count_from_app, count_to_next by assumption.
    replace (d + Z.of_nat (Z.to_nat (next_busday hol d - d)))
      with (next_busday hol d) by lia.
    rewrite Hcount. lia.
Qed.

End NpFacts.

(** ** The error monad *)

Lemma bind_Ok {A B : Type} (r : result A) (k : A -> result B) (b : B) :
  bind r k = Ok b <-> exists a, r = Ok a /\ k a = Ok b.
Proof.
  destruct r as [a | e]; simpl; split.
  - intros H. now exists a.
  - now intros [a' [[= ->] H]].
  - discriminate.
  - now intros [a' [H _]].
Qed.

Lemma bind_Err {A B : Type} (r : result A) (k : A -> result B) (e : error) :
  bind r k = Err e <-> r = Err e \/ exists a, r = Ok a /\ k a = Err e.
Proof.
  destruct r as [a | e']; simpl; split.
  - intros H. right. now exists a.
  - intros [H | [a' [[= ->] H]]]; [discriminate | assumption].
  - intros [= ->]. now left.
  - intros [[= ->] | [a' [H _]]]; [reflexivity | discriminate].
Qed.

Lemma mapM_Forall2 {A B : Type} (f : A -> result B) (l : list A) (l' : list B) :
  mapM f l = Ok l' <-> Forall2 (fun x y => f x = Ok y) l l'.
Proof.
  revert l'. induction l as [| x l IH]; intros l'; simpl.
  - split.
    + intros [= <-]. constructor.
    + intros H. now inversion H.
  - rewrite bind_Ok. split.
    + intros [y [Hy Hrest]]. apply bind_Ok in Hrest as [ys [Hys [= <-]]].
      constructor; [assumption | now apply IH].
    + intros H. inversion H as [| x' y l0 ys Hy Hys]; subst.
      exists y. split; [assumption |].
      apply IH in Hys. now rewrite Hys.
Qed.

Lemma mapM_Err {A B : Type} (f : A -> result B) (l : list A) (e : error) :
  mapM f l = Err e -> exists x, In x l /\ f x = Err e.
Proof.
  induction l as [| x l IH]; simpl; [discriminate |].
  intros H. apply bind_Err in H as [H | [y [Hy H]]].
  - exists x. auto.
  - apply bind_Err in H as [H | [ys [_ H]]]; [| discriminate].
    destruct (IH H) as [x' [Hin Hx']]. exists x'. auto.
Qed.

Lemma mapM_map {A B : Type} (f : A -> result B) (g : A -> B) (l : list A) :
  (forall x, In x l -> f x = Ok (g x)) -> mapM f l = Ok (map g l).
Proof.
  intros H. apply mapM_Forall2.
  induction l as [| x l IH]; simpl; constructor.
  - apply H. now left.
  - apply IH. intros y Hy. apply H. now right.
Qed.

Lemma mapM_nth_error {A B : Type} (f : A -> result B) (l : list A) (l' : list B) :
  mapM f l = Ok l' ->
  forall i x, nth_error l i = Some x ->
  exists y, f x = Ok y /\ nth_error l' i = Some y.
Proof.
  rewrite mapM_Forall2. induction 1 as [| x0 y0 l l' Hxy _ IH]; intros i x Hi.
  - now destruct i.
  - destruct i as [| i]; simpl in *.
    + injection Hi as <-. now exists y0.
    + now apply IH.
Qed.

(** ** One pair of dates *)

Section Pairs.

Variable hol : list Z.

Lemma networkdays_pair (b e : datetime64) :
  networkdays hol [b] [e] = n <- Np.busday_count1 hol b e ;; Ok [n].
Proof. reflexivity. Qed.

Lemma networkdays_days (b e : Z) :
  networkdays hol [Day b] [Day e] =
  Ok [if b =? e then 0
      else if b <? e then Np.count_from hol b (Z.to_nat (e - b))
      else - Np.count_from hol (e + 1) (Z.to_nat (b - e))].
Proof.
  rewrite networkdays_pair. simpl.
  destruct (b =? e); [reflexivity |]. now destruct (b <? e).
Qed.

Lemma snap_forward_busday d : Np.is_busday hol (snap_forward hol d) = true.
Proof.
  unfold snap_forward. destruct (Np.is_busday hol d) eqn:E; [assumption |].
  apply NpFacts.next_busday_spec.
Qed.

Lemma snap_backward_busday d : Np.is_busday hol (snap_backward hol d) = true.
Proof.
  unfold snap_backward. destruct (Np.is_busday hol d) eqn:E; [assumption |].
  apply NpFacts.prev_busday_spec.
Qed.

Lemma workday_forward_day (d n : Z) :
  workday hol [Day d] n "forward" = Ok [Day (Np.shift hol (snap_forward hol d) n)].
Proof.
  unfold workday, Np.busday_offset, snap_forward. simpl.
  unfold Np.apply_business_day_offset. simpl.
  now destruct (Np.is_busday hol d).
Qed.

Lemma workday_backward_day (d n : Z) :
  workday hol [Day d] n "backward" = Ok [Day (Np.shift hol (snap_backward hol d) n)].
Proof.
  unfold workday, Np.busday_offset, snap_backward. simpl.
  unfold Np.apply_business_day_offset. simpl.
  now destruct (Np.is_busday hol d).
Qed.

Lemma workday_default_day (d n : Z) :
  workday hol [Day d] n rolagem_default =
  Ok [Day (Np.shift hol (snap_forward hol d) n)].
Proof. exact (workday_forward_day d n). Qed.

End Pairs.

(** ** [networkdays]: what is counted *)

(** C1.  Evaluation of [networkdays] on a single date taken as start and
    as end: the count is 0 whether or not the date is a business day; and
    from a date to the day after it the count is 1 or 0 according to the
    start date alone.  The end date is not counted. *)
Theorem networkdays_same_day_is_zero (hol : list Z) (d : Z) :
  networkdays hol [Day d] [Day d] = Ok [0] /\
  networkdays hol [Day d] [Day (d + 1)] =
    Ok [if Np.is_busday hol d then 1 else 0].
Proof.
  rewrite !networkdays_days. split.
  - now rewrite Z.eqb_refl.
  - replace (d =? d + 1) with false by (symmetry; apply Z.eqb_neq; lia).
    replace (d <? d + 1) with true by (symmetry; apply Z.ltb_lt; lia).
    replace (Z.to_nat (d + 1 - d)) with 1%nat by lia.
    simpl. now destruct (Np.is_busday hol d).
Qed.

(** From a start to a later end, [networkdays] is the number of business
    days [x] with [start <= x < end]. *)
Lemma networkdays_forward (hol : list Z) (b e : Z) :
  b <= e ->
  networkdays hol [Day b] [Day e] = Ok [Np.count_from hol b (Z.to_nat (e - b))].
Proof.
  intros Hle. rewrite networkdays_days.
  destruct (Z.eqb_spec b e) as [-> | Hne].
  - now replace (e - e) with 0 by lia.
  - now replace (b <? e) with true by (symmetry; apply Z.ltb_lt; lia).
Qed.

(** C5.  For a business day [d] and [n >= 0], [workday] with the forward
    roll returns a date [e], and [networkdays] from [d] to [e] is [n]:
    the [n] business days from [d] on are counted, [e] itself is not. *)
Theorem networkdays_workday_roundtrip (hol : list Z) (d n : Z) :
  Np.is_busday hol d = true ->
  0 <= n ->
  exists e,
    workday hol [Day d] n "forward" = Ok [Day e] /\
    networkdays hol [Day d] [Day e] = Ok [n].
Proof.
  intros Hd Hn. exists (Np.shift hol (snap_forward hol d) n).
  split; [apply workday_forward_day |].
  unfold snap_forward. rewrite Hd. unfold Np.shift.
  destruct (Z.ltb_spec 0 n) as [Hpos | Hzero].
  - destruct (NpFacts.count_steps_next hol (Z.to_nat n) d Hd) as [Hle Hcount].
    rewrite networkdays_forward by assumption. rewrite Hcount.
    now rewrite Z2Nat.id by lia.
  - replace (n <? 0) with false by (symmetry; apply Z.ltb_ge; lia).
    replace n with 0 by lia.
    rewrite networkdays_forward by lia. now replace (d - d) with 0 by lia.
Qed.

Lemma networkdays_workday_roundtrip_witness :
  exists e,
    workday [19725] [Day 19723] 3 "forward" = Ok [Day e] /\
    networkdays [19725] [Day 19723] [Day e] = Ok [3].
Proof.
  apply (networkdays_workday_roundtrip [19725] 19723 3); [reflexivity | lia].
Defined.

(** C8.  Evaluation of [networkdays] on a reversed pair, without
    holidays: from Saturday 2024-01-06 back to Friday 2024-01-05 the count
    is 0, while from that Friday to that Saturday it is 1; the count of the
    reversed pair is not minus the count of the swapped pair. *)
Lemma networkdays_reverse_not_negation :
  19727 < 19728 /\
  networkdays [] [Day 19728] [Day 19727] = Ok [0] /\
  networkdays [] [Day 19727] [Day 19728] = Ok [1] /\
  0 <> - 1.
Proof.
  split; [lia |]. split; [reflexivity |]. split; [reflexivity | discriminate].
Qed.

(** What [np.busday_count] (NumPy 1.25 and later) makes of a reversed
    pair: for [end < start], [networkdays start end] is minus the number
    of business days [x] with [end < x <= start]; it is never positive,
    and it differs from minus [networkdays end start] by the two boundary
    days. *)
Theorem networkdays_reverse (hol : list Z) (s e : Z) :
  e < s ->
  exists n m,
    networkdays hol [Day s] [Day e] = Ok [n] /\
    networkdays hol [Day e] [Day s] = Ok [m] /\
    n = - Np.count_from hol (e + 1) (Z.to_nat (s - e)) /\
    n <= 0 /\
    n = - m + (if Np.is_busday hol e then 1 else 0)
            - (if Np.is_busday hol s then 1 else 0) /\
    (Np.is_busday hol s = Np.is_busday hol e -> n = - m).
Proof.
  intros Hlt.
  exists (- Np.count_from hol (e + 1) (Z.to_nat (s - e))),
         (Np.count_from hol e (Z.to_nat (s - e))).
  assert (Hrel : Np.count_from hol (e + 1) (Z.to_nat (s - e))
                 = Np.count_from hol e (Z.to_nat (s - e))
                   - (if Np.is_busday hol e then 1 else 0)
                   + (if Np.is_busday hol s then 1 else 0)).
  { replace (Z.to_nat (s - e)) with (S (Z.to_nat (s - e - 1))) by lia.
    rewrite NpFacts.count_from_snoc.
    replace (e + 1 + Z.of_nat (Z.to_nat (s - e - 1))) with s by lia.
    simpl. lia. }
  repeat split.
  - rewrite networkdays_days.
    replace (s =? e) with false by (symmetry; apply Z.eqb_neq; lia).
    now replace (s <? e) with false by (symmetry; apply Z.ltb_ge; lia).
  - apply networkdays_forward. lia.
  - pose proof (NpFacts.count_from_nonneg hol (Z.to_nat (s - e)) (e + 1)). lia.
  - lia.
  - intros Heq. rewrite Hrel, Heq. lia.
Qed.

Lemma networkdays_reverse_witness :
  exists n m,
    networkdays [19725] [Day 19727] [Day 19723] = Ok [n] /\
    networkdays [19725] [Day 19723] [Day 19727] = Ok [m] /\
    n = - Np.count_from [19725] (19723 + 1) (Z.to_nat (19727 - 19723)) /\
    n <= 0 /\
    n = - m + (if Np.is_busday [19725] 19723 then 1 else 0)
            - (if Np.is_busday [19725] 19727 then 1 else 0) /\
    (Np.is_busday [19725] 19727 = Np.is_busday [19725] 19723 -> n = - m).
Proof. apply (networkdays_reverse [19725] 19727 19723). lia. Defined.

(** Under the convention of NumPy before 1.25 a reversed pair counts the
    days [end <= x < start], which is the count of the swapped pair. *)
Lemma busday_count1_legacy_reverse (hol : list Z) (s e : Z) :
  e < s ->
  exists m,
    Np.busday_count1_legacy hol (Day e) (Day s) = Ok m /\
    Np.busday_count1_legacy hol (Day s) (Day e) = Ok (- m).
Proof.
  intros Hlt. exists (Np.count_from hol e (Z.to_nat (s - e))).
  unfold Np.busday_count1_legacy.
  replace (e =? s) with false by (symmetry; apply Z.eqb_neq; lia).
  replace (s =? e) with false by (symmetry; apply Z.eqb_neq; lia).
  replace (e <? s) with true by (symmetry; apply Z.ltb_lt; lia).
  now replace (s <? e) with false by (symmetry; apply Z.ltb_ge; lia).
Qed.

(** ** Which failure comes from where *)

Lemma np_repeat_single (x : datetime64) (n : nat) :
  List.length (np_repeat [x] n) = n.
Proof. unfold np_repeat. simpl. now rewrite app_nil_r, repeat_length. Qed.

Lemma stack2_same (a b : list datetime64) :
  List.length a = List.length b -> stack2 a b = Ok (a, b).
Proof. intros H. unfold stack2. now rewrite H, Nat.eqb_refl. Qed.

Lemma broadcast_mismatch (a b : list datetime64) :
  (1 < List.length a)%nat -> (1 < List.length b)%nat ->
  List.length a <> List.length b ->
  broadcast a b = Err (IncompatibleLength (List.length a) (List.length b)).
Proof.
  intros Ha Hb Hne. unfold broadcast.
  replace (Nat.eqb (List.length a) (List.length b)) with false
    by (symmetry; now apply Nat.eqb_neq).
  replace (Nat.eqb (List.length a) 1) with false
    by (symmetry; apply Nat.eqb_neq; lia).
  replace (Nat.eqb (List.length b) 1) with false
    by (symmetry; apply Nat.eqb_neq; lia).
  replace (Nat.ltb 1 (List.length a)) with true
    by (symmetry; now apply Nat.ltb_lt).
  replace (Nat.ltb 1 (List.length b)) with true
    by (symmetry; now apply Nat.ltb_lt).
  reflexivity.
Qed.

(** Equal lengths, or a side of length 1: broadcasting succeeds, and the
    two arrays it returns have one length. *)
Lemma broadcast_compatible (a b : list datetime64) :
  List.length a = List.length b \/ List.length a = 1%nat \/ List.length b = 1%nat ->
  exists a' b',
    broadcast a b = Ok (a', b') /\ List.length a' = List.length b'.
Proof.
  intros H. unfold broadcast.
  destruct (Nat.eqb_spec (List.length a) (List.length b)) as [Heq | Hne]; simpl.
  - exists a, b. rewrite stack2_same by assumption. now split.
  - destruct (Nat.eqb_spec (List.length a) 1) as [Ha | Ha]; simpl.
    + destruct a as [| x [| y a]]; try discriminate.
      exists (np_repeat [x] (List.length b)), b.
      rewrite stack2_same by apply np_repeat_single.
      split; [reflexivity | apply np_repeat_single].
    + destruct (Nat.eqb_spec (List.length b) 1) as [Hb | Hb]; simpl; [| lia].
      destruct b as [| y [| z b]]; try discriminate.
      exists a, (np_repeat [y] (List.length a)).
      rewrite stack2_same by (symmetry; apply np_repeat_single).
      split; [reflexivity | symmetry; apply np_repeat_single].
Qed.

Lemma busday_count_Err hol a b e :
  Np.busday_count hol a b = Err e -> e = NaTInCount.
Proof.
  intros H. apply mapM_Err in H as [[x y] [_ H]]. simpl in H.
  destruct x, y; simpl in H; try congruence.
  destruct (z =? z0); [discriminate |]. destruct (z <? z0); discriminate.
Qed.

Lemma apply_business_day_offset_Err hol r offset x e :
  Np.apply_business_day_offset hol r offset x = Err e ->
  e = NaTInOffset \/ e = NonBusinessDay.
Proof.
  unfold Np.apply_business_day_offset, Np.apply_business_day_roll.
  destruct x as [| d].
  - destruct r; simpl; intros [= <-]; auto.
  - destruct (Np.is_busday hol d); [discriminate |].
    destruct r; simpl; try discriminate.
    + intros [= <-]; auto.
    + destruct (_ =? _); discriminate.
    + destruct (_ =? _); discriminate.
Qed.

Lemma busday_offset_Err hol ds offset token e :
  Np.busday_offset hol ds offset token = Err e ->
  Np.roll_converter token = Err e \/ e = NaTInOffset \/ e = NonBusinessDay.
Proof.
  unfold Np.busday_offset. intros H.
  apply bind_Err in H as [H | [r [_ H]]]; [now left | right].
  apply mapM_Err in H as [x [_ H]].
  now apply apply_business_day_offset_Err in H.
Qed.

Lemma roll_converter_Err token e :
  Np.roll_converter token = Err e -> e = InvalidRoll token.
Proof.
  unfold Np.roll_converter.
  repeat match goal with
         | |- context [if ?c then _ else _] => destruct c; [discriminate |]
         end.
  now intros [= <-].
Qed.

Lemma busday_offset_no_length_error hol ds offset token e :
  Np.busday_offset hol ds offset token = Err e -> ~ length_error e.
Proof.
  intros H. apply busday_offset_Err in H as [H | [-> | ->]]; simpl; auto.
  apply roll_converter_Err in H. subst e. simpl. auto.
Qed.

Lemma workday_no_length_error hol ds offset rolagem e :
  workday hol ds offset rolagem = Err e -> ~ length_error e.
Proof. unfold workday. apply busday_offset_no_length_error. Qed.

Lemma pair_dates_no_length_error hol di df e :
  pair_dates hol di df = Err e -> ~ length_error e.
Proof.
  unfold pair_dates. rewrite networkdays_pair. intros H.
  apply bind_Err in H as [H | [ns [Hns H]]].
  - apply bind_Err in H as [H | [n [_ H]]]; [| discriminate].
    destruct di, df; simpl in H; try (injection H as <-; simpl; tauto).
    destruct (z =? z0); [discriminate |]. destruct (z <? z0); discriminate.
  - destruct ns as [| n ns]; [injection H as <-; simpl; tauto |].
    apply bind_Err in H as [H | [rows [_ H]]]; [| discriminate].
    apply mapM_Err in H as [i [_ H]].
    now apply workday_no_length_error in H.
Qed.

(** ** Broadcasting failures *)

(** C6.  When both inputs have more than one element and their lengths
    differ, [networkdays] and [work_dates] (whatever the roll token) fail
    with the error that carries the two lengths; when the lengths are equal
    or one of them is 1, neither function fails with that error. *)
Theorem incompatible_lengths (hol : list Z) (a b : list datetime64)
    (rolagem : option string) :
  let m := List.length a in
  let n := List.length b in
  ((1 < m)%nat /\ (1 < n)%nat /\ m <> n ->
   networkdays hol a b = Err (IncompatibleLength m n) /\
   work_dates hol a b rolagem = Err (IncompatibleLength m n)) /\
  (m = n \/ m = 1%nat \/ n = 1%nat ->
   forall e, length_error e ->
             networkdays hol a b <> Err e /\ work_dates hol a b rolagem <> Err e).
Proof.
  intros m n. subst m n. split.
  - intros [Ha [Hb Hne]].
    unfold networkdays, work_dates, work_dates_rows, work_dates_pairs.
    now rewrite broadcast_mismatch.
  - intros H e He.
    destruct (broadcast_compatible a b H) as [a' [b' [Hbc _]]].
    unfold networkdays, work_dates, work_dates_rows, work_dates_pairs.
    rewrite Hbc. simpl. split; intros Herr.
    + apply busday_count_Err in Herr. subst e. exact He.
    + apply bind_Err in Herr as [Herr | [rows [_ Herr]]]; [| discriminate].
      apply bind_Err in Herr as [Herr | [pairs [_ Herr]]].
      * apply bind_Err in Herr as [Herr | [[a2 b2] [_ Herr]]]; [| discriminate].
        unfold work_dates_roll in Herr.
        destruct (translate rolagem) as [r |]; [| discriminate].
        apply bind_Err in Herr as [Herr | [a2 [_ Herr]]].
        -- now apply busday_offset_no_length_error in Herr.
        -- apply bind_Err in Herr as [Herr | [b2 [_ Herr]]]; [| discriminate].
           now apply busday_offset_no_length_error in Herr.
      * apply mapM_Err in Herr as [[di df] [_ Herr]].
        now apply pair_dates_no_length_error in Herr.
Qed.

Lemma incompatible_lengths_witness :
  (networkdays [] [Day 1; Day 2] [Day 1; Day 2; Day 3]
     = Err (IncompatibleLength 2 3) /\
   work_dates [] [Day 1; Day 2] [Day 1; Day 2; Day 3] (Some "forward")
     = Err (IncompatibleLength 2 3)) /\
  (forall e, length_error e ->
     networkdays [] [Day 19723] [Day 19724; Day 19725] <> Err e /\
     work_dates [] [Day 19723] [Day 19724; Day 19725] None <> Err e).
Proof.
  split.
  - apply (incompatible_lengths [] [Day 1; Day 2] [Day 1; Day 2; Day 3]
             (Some "forward")).
    simpl. lia.
  - apply (incompatible_lengths [] [Day 19723] [Day 19724; Day 19725] None).
    simpl. lia.
Defined.

(** ** Roll tokens *)

(** C7, the claim as stated fails twice: the token FORWARD in capitals is
    rejected, and the token following, which is none of the four words, is
    accepted. *)
Lemma workday_tokens_not_as_claimed :
  workday [] [Day 19728] 0 "FORWARD" = Err (InvalidRoll "FORWARD") /\
  lower "FORWARD" = "forward" /\
  workday [] [Day 19728] 0 "following" = Ok [Day 19730].
Proof. repeat split. Qed.

Lemma roll_converter_Ok_or_invalid token :
  (exists r, Np.roll_converter token = Ok r) \/
  Np.roll_converter token = Err (InvalidRoll token).
Proof.
  unfold Np.roll_converter.
  repeat match goal with
         | |- context [if ?c then _ else _] => destruct c; [left; eauto |]
         end.
  now right.
Qed.

Lemma busday_offset_valid_roll hol ds offset token r :
  Np.roll_converter token = Ok r ->
  forall t, Np.busday_offset hol ds offset token <> Err (InvalidRoll t).
Proof.
  intros Hr t H. apply busday_offset_Err in H as [H | [H | H]]; congruence.
Qed.

(** C7, amended.  [workday] rejects a token, with the roll error that
    carries the token, exactly when the token is not accepted in the sense
    of [accepted]: posterior and anterior in any letter case, and NumPy's
    own eight tokens in lower case only.  Every spelling of posterior
    returns what forward and following return; every spelling of anterior
    returns what backward and preceding return. *)
Theorem workday_tokens (hol : list Z) (ds : list datetime64) (n : Z)
    (rolagem : string) :
  (accepted rolagem = false ->
   workday hol ds n rolagem = Err (InvalidRoll rolagem)) /\
  (accepted rolagem = true ->
   forall t, workday hol ds n rolagem <> Err (InvalidRoll t)) /\
  (lower rolagem = "posterior" ->
   workday hol ds n rolagem = workday hol ds n "forward" /\
   workday hol ds n rolagem = workday hol ds n "following") /\
  (lower rolagem = "anterior" ->
   workday hol ds n rolagem = workday hol ds n "backward" /\
   workday hol ds n rolagem = workday hol ds n "preceding").
Proof.
  unfold accepted, workday. split; [| split; [| split]].
  - intros H. repeat (apply orb_false_elim in H as [H ?]).
    rewrite H. 
    match goal with H' : String.eqb (lower rolagem) "anterior" = false |- _ =>
      rewrite H' end.
    unfold Np.busday_offset, Np.roll_converter.
    repeat match goal with H' : String.eqb rolagem _ = false |- _ =>
      rewrite H'; clear H' end.
    reflexivity.
  - intros H t.
    destruct (String.eqb (lower rolagem) "posterior") eqn:Hp;
      [now apply (busday_offset_valid_roll _ _ _ _ Np.Forward) |].
    destruct (String.eqb (lower rolagem) "anterior") eqn:Ha;
      [now apply (busday_offset_valid_roll _ _ _ _ Np.Backward) |].
    simpl in H.
    destruct (roll_converter_Ok_or_invalid rolagem) as [[r Hr] | Hr];
      [now apply (busday_offset_valid_roll _ _ _ _ r) |].
    unfold Np.roll_converter in Hr.
    repeat match type of H with
           | context [String.eqb rolagem ?s] =>
               destruct (String.eqb rolagem s); [discriminate Hr |]
           end.
    discriminate H.
  - intros ->. split; reflexivity.
  - intros Ha.
    replace (String.eqb (lower rolagem) "posterior") with false
      by now rewrite Ha.
    rewrite Ha. split; reflexivity.
Qed.

Lemma workday_tokens_witness :
  workday [19725] [Day 19725] 1 "Forward" = Err (InvalidRoll "Forward") /\
  (forall t, workday [19725] [Day 19725] 1 "preceding" <> Err (InvalidRoll t)) /\
  (workday [19725] [Day 19725] 1 "PosTerior"
     = workday [19725] [Day 19725] 1 "forward" /\
   workday [19725] [Day 19725] 1 "PosTerior"
     = workday [19725] [Day 19725] 1 "following") /\
  (workday [19725] [Day 19725] 1 "ANTERIOR"
     = workday [19725] [Day 19725] 1 "backward" /\
   workday [19725] [Day 19725] 1 "ANTERIOR"
     = workday [19725] [Day 19725] 1 "preceding").
Proof.
  split; [| split; [| split]].
  - apply (workday_tokens [19725] [Day 19725] 1 "Forward"). reflexivity.
  - apply (workday_tokens [19725] [Day 19725] 1 "preceding"). reflexivity.
  - apply (workday_tokens [19725] [Day 19725] 1 "PosTerior"). reflexivity.
  - apply (workday_tokens [19725] [Day 19725] 1 "ANTERIOR"). reflexivity.
Defined.

(** ** [workday] returns business days *)

Section Shifter.

Variable hol : list Z.

Lemma business_date_not_weekend x :
  business_date hol x -> exists z, x = Day z /\ Np.is_weekend z = false.
Proof.
  destruct x as [| z]; simpl; [tauto |]. intros H. exists z.
  split; [reflexivity | now apply NpFacts.is_busday_not_weekend in H].
Qed.

Lemma apply_business_day_roll_busday r d d' :
  Np.apply_business_day_roll hol r (Day d) = Ok (Day d') ->
  Np.is_busday hol d' = true.
Proof.
  unfold Np.apply_business_day_roll.
  destruct (Np.is_busday hol d) eqn:Hd; [now intros [= <-] |].
  pose proof (NpFacts.next_busday_spec hol d) as [_ [Hn _]].
  pose proof (NpFacts.prev_busday_spec hol d) as [_ [Hp _]].
  destruct r; try discriminate; try (now intros [= <-]);
    destruct (_ =? _); now intros [= <-].
Qed.

Lemma apply_business_day_offset_busday r offset x z :
  Np.apply_business_day_offset hol r offset x = Ok (Day z) ->
  Np.is_busday hol z = true.
Proof.
  unfold Np.apply_business_day_offset. intros H.
  apply bind_Ok in H as [[| d'] [Hroll H]]; [discriminate |].
  injection H as <-. apply NpFacts.shift_busday.
  destruct x as [| d].
  - destruct r; discriminate.
  - now apply apply_business_day_roll_busday in Hroll.
Qed.

(** Offsetting by 0 what an offset returned changes nothing. *)
Lemma apply_business_day_offset_again r offset x y :
  Np.apply_business_day_offset hol r offset x = Ok y ->
  Np.apply_business_day_offset hol r 0 y = Ok y.
Proof.
  intros H. destruct y as [| z].
  - assert (Hr : r <> Np.Raise).
    { intros ->. unfold Np.apply_business_day_offset in H.
      apply bind_Ok in H as [[| d'] [Hroll H]]; [| discriminate].
      destruct x as [| d]; [discriminate |]. simpl in Hroll.
      destruct (Np.is_busday hol d); discriminate. }
    destruct r; try reflexivity. congruence.
  - apply apply_business_day_offset_busday in H.
    unfold Np.apply_business_day_offset. simpl. now rewrite H.
Qed.

Lemma busday_offset_again ds offset token rs :
  Np.busday_offset hol ds offset token = Ok rs ->
  Np.busday_offset hol rs 0 token = Ok rs /\
  forall z, In (Day z) rs -> Np.is_busday hol z = true.
Proof.
  unfold Np.busday_offset. intros H.
  apply bind_Ok in H as [r [Hr H]]. rewrite Hr. simpl.
  apply mapM_Forall2 in H. split.
  - apply mapM_Forall2.
    induction H as [| x y ds rs Hxy _ IH]; constructor; [| assumption].
    now apply apply_business_day_offset_again in Hxy.
  - induction H as [| x y ds rs Hxy _ IH]; intros z Hin; [destruct Hin |].
    destruct Hin as [-> | Hin]; [| now apply IH].
    now apply apply_business_day_offset_busday in Hxy.
Qed.

(** With a forward or backward roll every date has an image. *)
Lemma workday_forward_backward_total (d n : Z) (rolagem : string) :
  lower rolagem = "posterior" \/ lower rolagem = "anterior" \/
  rolagem = "forward" \/ rolagem = "backward" ->
  exists e, workday hol [Day d] n rolagem = Ok [Day e].
Proof.
  intros [H | [H | [-> | ->]]].
  - exists (Np.shift hol (snap_forward hol d) n).
    rewrite <- workday_forward_day. unfold workday. now rewrite H.
  - exists (Np.shift hol (snap_backward hol d) n).
    rewrite <- workday_backward_day. unfold workday.
    replace (String.eqb (lower rolagem) "posterior") with false
      by now rewrite H.
    now rewrite H.
  - eexists. apply workday_forward_day.
  - eexists. apply workday_backward_day.
Qed.

(** *** What a pair contributes *)

Lemma concat_map_singleton {A B : Type} (f : A -> B) (l : list A) :
  List.concat (map (fun x => [f x]) l) = map f l.
Proof. induction l as [| x l IH]; simpl; [reflexivity | now rewrite IH]. Qed.

(** The row of one pair, in closed form. *)
Lemma pair_dates_days (s e n : Z) :
  networkdays hol [Day s] [Day e] = Ok [n] ->
  pair_dates hol (Day s) (Day e) =
  Ok (map (fun i => Day (Np.shift hol (snap_forward hol s) i)) (range (n + 1))).
Proof.
  intros Hn. unfold pair_dates. rewrite Hn. simpl.
  rewrite (mapM_map _ (fun i => [Day (Np.shift hol (snap_forward hol s) i)]))
    by (intros i _; apply workday_default_day).
  simpl. now rewrite concat_map_singleton.
Qed.

Lemma networkdays_pair_Ok (di df : datetime64) (ns : list Z) :
  networkdays hol [di] [df] = Ok ns ->
  exists s e n, di = Day s /\ df = Day e /\ ns = [n].
Proof.
  rewrite networkdays_pair. intros H.
  apply bind_Ok in H as [n [Hn [= <-]]].
  destruct di as [| s], df as [| e]; try discriminate.
  now exists s, e, n.
Qed.

Lemma pair_dates_Ok (di df : datetime64) (row : list datetime64) :
  pair_dates hol di df = Ok row ->
  exists s e n,
    di = Day s /\ df = Day e /\ networkdays hol [Day s] [Day e] = Ok [n] /\
    row = map (fun i => Day (Np.shift hol (snap_forward hol s) i)) (range (n + 1)).
Proof.
  intros H. assert (H' := H). unfold pair_dates in H'.
  apply bind_Ok in H' as [ns [Hns _]].
  destruct (networkdays_pair_Ok _ _ _ Hns) as [s [e [n [-> [-> ->]]]]].
  exists s, e, n. repeat split; [assumption |].
  rewrite (pair_dates_days s e n Hns) in H. now injection H.
Qed.

Lemma pair_dates_business (di df : datetime64) (row : list datetime64) :
  pair_dates hol di df = Ok row -> Forall (business_date hol) row.
Proof.
  intros H. destruct (pair_dates_Ok _ _ _ H) as [s [e [n [_ [_ [_ ->]]]]]].
  apply Forall_forall. intros x Hx. apply in_map_iff in Hx as [i [<- _]].
  simpl. apply NpFacts.shift_busday, snap_forward_busday.
Qed.

End Shifter.

Lemma flatten_object_dates (rows : list (list datetime64)) (c : Np.cell) (x : datetime64) :
  In c (Np.flatten_object rows) -> In x (cell_dates c) ->
  exists row, In row rows /\ In x row.
Proof.
  unfold Np.flatten_object. destruct (Np.same_length rows); intros Hc Hx.
  - apply in_map_iff in Hc as [y [<- Hy]]. simpl in Hx.
    destruct Hx as [<- | []]. apply in_concat in Hy as [row [Hrow Hy]].
    now exists row.
  - apply in_map_iff in Hc as [row [<- Hrow]]. simpl in Hx. now exists row.
Qed.

Lemma work_dates_rows_business hol a b rolagem rows :
  work_dates_rows hol a b rolagem = Ok rows ->
  Forall (Forall (business_date hol)) rows.
Proof.
  unfold work_dates_rows. intros H.
  apply bind_Ok in H as [pairs [_ H]]. apply mapM_Forall2 in H.
  induction H as [| p row pairs rows Hp _ IH]; constructor; [| assumption].
  now apply pair_dates_business in Hp.
Qed.

(** C9.  (1) For a single date and a forward or backward roll, in any
    accepted spelling, [workday] returns a date, that date is a business
    day and not a weekend day, and [workday] with offset 0 and the same roll
    maps it to itself.  (2) For an array of dates and any token, whenever
    [workday] returns, applying it again with offset 0 returns the same
    array, and no date in it is a weekend day.  (3) No date in a result of
    [work_dates] is a weekend day, whatever the holidays. *)
Theorem workday_idempotent (hol : list Z) :
  (forall (d n : Z) (rolagem : string),
     lower rolagem = "posterior" \/ lower rolagem = "anterior" \/
     rolagem = "forward" \/ rolagem = "backward" ->
     exists e,
       workday hol [Day d] n rolagem = Ok [Day e] /\
       workday hol [Day e] 0 rolagem = Ok [Day e] /\
       Np.is_busday hol e = true /\ Np.is_weekend e = false) /\
  (forall (ds rs : list datetime64) (n : Z) (rolagem : string),
     workday hol ds n rolagem = Ok rs ->
     workday hol rs 0 rolagem = Ok rs /\
     forall z, In (Day z) rs -> Np.is_weekend z = false) /\
  (forall (a b : list datetime64) (rolagem : option string) (cells : list Np.cell),
     work_dates hol a b rolagem = Ok cells ->
     forall c x, In c cells -> In x (cell_dates c) ->
     exists z, x = Day z /\ Np.is_weekend z = false).
Proof.
  split; [| split].
  - intros d n rolagem Hr.
    destruct (workday_forward_backward_total hol d n rolagem Hr) as [e He].
    exists e. unfold workday in *.
    destruct (busday_offset_again hol _ _ _ _ He) as [Hagain Hbus].
    specialize (Hbus e (or_introl eq_refl)).
    repeat split; try assumption.
    now apply NpFacts.is_busday_not_weekend in Hbus.
  - intros ds rs n rolagem H. unfold workday in *.
    destruct (busday_offset_again hol _ _ _ _ H) as [Hagain Hbus].
    split; [assumption |]. intros z Hz.
    exact (NpFacts.is_busday_not_weekend hol z (Hbus z Hz)).
  - intros a b rolagem cells H c x Hc Hx. unfold work_dates in H.
    apply bind_Ok in H as [rows [Hrows [= <-]]].
    destruct (flatten_object_dates rows c x Hc Hx) as [row [Hrow Hin]].
    apply work_dates_rows_business in Hrows.
    rewrite Forall_forall in Hrows. specialize (Hrows row Hrow).
    rewrite Forall_forall in Hrows.
    now apply (business_date_not_weekend hol), Hrows.
Qed.

Lemma workday_idempotent_witness :
  (exists e,
     workday [19725] [Day 19728] 2 "Anterior" = Ok [Day e] /\
     workday [19725] [Day e] 0 "Anterior" = Ok [Day e] /\
     Np.is_busday [19725] e = true /\ Np.is_weekend e = false) /\
  (workday [19725] [Day 19724; Day 19727] 0 "modifiedfollowing"
     = Ok [Day 19724; Day 19727] /\
   forall z, In (Day z) [Day 19724; Day 19727] -> Np.is_weekend z = false) /\
  (forall c x,
     In c [Np.Scalar (Day 19723); Np.Scalar (Day 19724); Np.Scalar (Day 19726)] ->
     In x (cell_dates c) ->
     exists z, x = Day z /\ Np.is_weekend z = false).
Proof.
  split; [| split].
  - apply (proj1 (workday_idempotent [19725]) 19728 2 "Anterior").
    right. left. reflexivity.
  - apply (proj1 (proj2 (workday_idempotent [19725]))
             [Day 19723; Day 19725] [Day 19724; Day 19727] 1 "modifiedfollowing").
    reflexivity.
  - apply (proj2 (proj2 (workday_idempotent [19725]))
             [Day 19723] [Day 19725] (Some "backward")).
    reflexivity.
Defined.

(** ** [work_dates]: the dates of a pair *)

Lemma work_dates_rows_of_pairs hol a b rolagem pairs rows :
  work_dates_pairs a b rolagem = Ok pairs ->
  work_dates_rows hol a b rolagem = Ok rows ->
  mapM (fun p => pair_dates hol (fst p) (snd p)) pairs = Ok rows.
Proof. unfold work_dates_rows. now intros ->. Qed.

Lemma range_length k : List.length (range k) = Z.to_nat k.
Proof. unfold range. now rewrite length_map, length_seq. Qed.

Lemma range_nonpositive k : k <= 0 -> range k = [].
Proof. intros H. unfold range. now replace (Z.to_nat k) with 0%nat by lia. Qed.

(** C10.  A pair of the loop of [work_dates] whose count [n] has
    [n + 1 <= 0] yields the empty row: the loop body returns no date for it,
    and the row it leaves in [matriz_resposta] is empty. *)
Theorem work_dates_reversed_pair_empty (hol : list Z)
    (a b : list datetime64) (rolagem : option string)
    (pairs : list (datetime64 * datetime64)) (i : nat)
    (di df : datetime64) (n : Z) :
  work_dates_pairs a b rolagem = Ok pairs ->
  nth_error pairs i = Some (di, df) ->
  networkdays hol [di] [df] = Ok [n] ->
  n + 1 <= 0 ->
  pair_dates hol di df = Ok [] /\
  forall rows, work_dates_rows hol a b rolagem = Ok rows ->
               nth_error rows i = Some [].
Proof.
  intros Hpairs Hi Hn Hneg.
  assert (Hrow : pair_dates hol di df = Ok []).
  { unfold pair_dates. rewrite Hn. simpl. now rewrite range_nonpositive. }
  split; [assumption |]. intros rows Hrows.
  pose proof (work_dates_rows_of_pairs _ _ _ _ _ _ Hpairs Hrows) as HM.
  destruct (mapM_nth_error _ _ _ HM i _ Hi) as [row [Hrow' Hnth]].
  simpl in Hrow'. congruence.
Qed.

Lemma work_dates_reversed_pair_empty_witness :
  pair_dates [19725] (Day 19730) (Day 19723) = Ok [] /\
  forall rows,
    work_dates_rows [19725] [Day 19723; Day 19728] [Day 19724; Day 19723]
      (Some "posterior") = Ok rows ->
    nth_error rows 1 = Some [].
Proof.
  apply (work_dates_reversed_pair_empty [19725]
           [Day 19723; Day 19728] [Day 19724; Day 19723] (Some "posterior")
           [(Day 19723, Day 19724); (Day 19730, Day 19723)] 1
           (Day 19730) (Day 19723) (-4));
    [reflexivity | reflexivity | reflexivity | lia].
Defined.

(** Line 135 as it is written: for every aligned pair of the loop of
    [work_dates], with [c] the count the code's own [networkdays] returns
    for it, the row built holds the dates [workday(start, k)] for [k] in
    [range(c + 1)], [workday] rolling forward as by default. *)
Theorem work_dates_pair_span (hol : list Z)
    (a b : list datetime64) (rolagem : option string)
    (pairs : list (datetime64 * datetime64)) (rows : list (list datetime64))
    (i : nat) (di df : datetime64) :
  work_dates_pairs a b rolagem = Ok pairs ->
  work_dates_rows hol a b rolagem = Ok rows ->
  nth_error pairs i = Some (di, df) ->
  exists n row,
    networkdays hol [di] [df] = Ok [n] /\
    nth_error rows i = Some row /\
    List.length row = Z.to_nat (n + 1) /\
    Forall2 (fun k x => workday hol [di] k rolagem_default = Ok [x])
            (range (n + 1)) row.
Proof.
  intros Hpairs Hrows Hi.
  pose proof (work_dates_rows_of_pairs _ _ _ _ _ _ Hpairs Hrows) as HM.
  destruct (mapM_nth_error _ _ _ HM i _ Hi) as [row [Hrow Hnth]].
  simpl in Hrow.
  destruct (pair_dates_Ok hol _ _ _ Hrow) as [s [e [n [-> [-> [Hn ->]]]]]].
  exists n. eexists. split; [exact Hn |]. split; [exact Hnth |]. split.
  - now rewrite length_map, range_length.
  - generalize (range (n + 1)) as ks.
    induction ks as [| k ks IH]; simpl; constructor;
      [apply workday_default_day | exact IH].
Qed.

Lemma work_dates_pair_span_witness :
  exists n row,
    networkdays [19725] [Day 19723] [Day 19727] = Ok [n] /\
    nth_error [[Day 19723; Day 19724; Day 19726; Day 19727]] 0
      = Some row /\
    List.length row = Z.to_nat (n + 1) /\
    Forall2 (fun k x => workday [19725] [Day 19723] k rolagem_default = Ok [x])
            (range (n + 1)) row.
Proof.
  apply (work_dates_pair_span [19725] [Day 19723] [Day 19727] None
           [(Day 19723, Day 19727)]
           [[Day 19723; Day 19724; Day 19726; Day 19727]] 0
           (Day 19723) (Day 19727));
    reflexivity.
Defined.

(** ** [work_dates]: the roll before the loop *)

Lemma busday_offset_nil_weekday (d : Z) (token : string) (r : Np.roll) :
  Np.roll_converter token = Ok r ->
  Np.is_weekend d = false ->
  Np.busday_offset [] [Day d] 0 token = Ok [Day d].
Proof.
  intros Hr Hd. unfold Np.busday_offset. rewrite Hr. simpl.
  unfold Np.apply_business_day_offset. simpl.
  rewrite NpFacts.is_busday_nil, Hd. reflexivity.
Qed.

(** C3.  A start and an end date that are a holiday on a weekday are left
    where they are by the roll of [work_dates], for the forward and for the
    backward policy, while [workday] with offset 0 and the same policy
    moves such a date to a business day: the two snapping rules differ on
    holidays. *)
Theorem work_dates_roll_keeps_holiday (hol : list Z) (d : Z) (rolagem : string) :
  Np.is_weekend d = false ->
  Np.is_holiday hol d = true ->
  rolagem = "posterior" \/ rolagem = "anterior" \/
  rolagem = "forward" \/ rolagem = "backward" ->
  work_dates_pairs [Day d] [Day d] (Some rolagem) = Ok [(Day d, Day d)] /\
  exists e,
    workday hol [Day d] 0 rolagem = Ok [Day e] /\
    Np.is_busday hol e = true /\ e <> d.
Proof.
  intros Hwd Hhol Hr. split.
  - unfold work_dates_pairs, broadcast. simpl.
    assert (Ht : exists token r,
               translate (Some rolagem) = Some token /\
               Np.roll_converter token = Ok r).
    { destruct Hr as [-> | [-> | [-> | ->]]];
        [exists "forward", Np.Forward | exists "backward", Np.Backward
        | exists "forward", Np.Forward | exists "backward", Np.Backward];
        split; reflexivity. }
    destruct Ht as [token [r [-> Hconv]]]. unfold work_dates_roll.
    now rewrite (busday_offset_nil_weekday d token r Hconv Hwd).
  - assert (Hnot : Np.is_busday hol d = false).
    { unfold Np.is_busday. rewrite Hhol. apply andb_false_r. }
    destruct Hr as [-> | [-> | [-> | ->]]].
    + exists (snap_forward hol d). split; [apply (workday_forward_day hol d 0) |].
      split; [apply snap_forward_busday |]. intros Heq.
      pose proof (snap_forward_busday hol d). congruence.
    + exists (snap_backward hol d). split; [apply (workday_backward_day hol d 0) |].
      split; [apply snap_backward_busday |]. intros Heq.
      pose proof (snap_backward_busday hol d). congruence.
    + exists (snap_forward hol d). split; [apply (workday_forward_day hol d 0) |].
      split; [apply snap_forward_busday |]. intros Heq.
      pose proof (snap_forward_busday hol d). congruence.
    + exists (snap_backward hol d). split; [apply (workday_backward_day hol d 0) |].
      split; [apply snap_backward_busday |]. intros Heq.
      pose proof (snap_backward_busday hol d). congruence.
Qed.

Lemma work_dates_roll_keeps_holiday_witness :
  work_dates_pairs [Day 19725] [Day 19725] (Some "anterior")
    = Ok [(Day 19725, Day 19725)] /\
  exists e,
    workday [19725] [Day 19725] 0 "anterior" = Ok [Day e] /\
    Np.is_busday [19725] e = true /\ e <> 19725.
Proof.
  apply (work_dates_roll_keeps_holiday [19725] 19725 "anterior");
    [reflexivity | reflexivity | right; left; reflexivity].
Defined.

(** What the difference does to a result: Wednesday 2024-01-03 a holiday,
    range from Monday 2024-01-01 to that Wednesday, backward roll.  The end
    stays on the holiday and the result runs to Thursday, the day after the
    end; with the end moved back to Tuesday, as [workday] moves it, the
    result stops on Tuesday. *)
Lemma work_dates_holiday_end_example :
  work_dates [19725] [Day 19723] [Day 19725] (Some "backward")
    = Ok [Np.Scalar (Day 19723); Np.Scalar (Day 19724); Np.Scalar (Day 19726)] /\
  workday [19725] [Day 19725] 0 "backward" = Ok [Day 19724] /\
  work_dates [19725] [Day 19723] [Day 19724] None
    = Ok [Np.Scalar (Day 19723); Np.Scalar (Day 19724)].
Proof. repeat split. Qed.

(** ** [work_dates]: the shape of the result *)

Lemma work_dates_same_length hol a b rolagem rows :
  work_dates_rows hol a b rolagem = Ok rows ->
  Np.same_length rows = true ->
  work_dates hol a b rolagem = Ok (map Np.Scalar (List.concat rows)).
Proof.
  intros Hrows Hsame. unfold work_dates, Np.flatten_object.
  rewrite Hrows. simpl. now rewrite Hsame.
Qed.

Lemma work_dates_ragged hol a b rolagem rows :
  work_dates_rows hol a b rolagem = Ok rows ->
  Np.same_length rows = false ->
  work_dates hol a b rolagem = Ok (map Np.Nested rows).
Proof.
  intros Hrows Hsame. unfold work_dates, Np.flatten_object.
  rewrite Hrows. simpl. now rewrite Hsame.
Qed.

(** C4.  Evaluation of [work_dates] on two pairs with spans of two and of
    three business days (Monday 2024-01-01 to Tuesday, and the same Monday
    to Wednesday, no holidays): the rows are the two spans, and the result
    has two elements, each a whole row; it is not the list of the five
    dates. *)
Theorem work_dates_unequal_spans_nested :
  work_dates_rows [] [Day 19723; Day 19723] [Day 19724; Day 19725] None
    = Ok [[Day 19723; Day 19724]; [Day 19723; Day 19724; Day 19725]] /\
  work_dates [] [Day 19723; Day 19723] [Day 19724; Day 19725] None
    = Ok [Np.Nested [Day 19723; Day 19724];
          Np.Nested [Day 19723; Day 19724; Day 19725]] /\
  work_dates [] [Day 19723; Day 19723] [Day 19724; Day 19725] None
    <> Ok (map Np.Scalar
             ([Day 19723; Day 19724] ++ [Day 19723; Day 19724; Day 19725])).
Proof.
  split; [reflexivity |]. split; [reflexivity | discriminate].
Qed.

(** ** Further properties of the calendar *)

Section CalendarOrder.

Variable hol : list Z.

(** The first business day after [d] is determined by [d]. *)
Lemma first_after_unique (d e e' : Z) :
  d < e -> Np.is_busday hol e = true ->
  (forall x, d < x < e -> Np.is_busday hol x = false) ->
  d < e' -> Np.is_busday hol e' = true ->
  (forall x, d < x < e' -> Np.is_busday hol x = false) ->
  e = e'.
Proof.
  intros He Hb Hmin He' Hb' Hmin'.
  destruct (Z.lt_trichotomy e e') as [Hlt | [Heq | Hgt]]; [| assumption |].
  - rewrite (Hmin' e) in Hb by lia. discriminate.
  - rewrite (Hmin e') in Hb' by lia. discriminate.
Qed.

Lemma first_before_unique (d e e' : Z) :
  e < d -> Np.is_busday hol e = true ->
  (forall x, e < x < d -> Np.is_busday hol x = false) ->
  e' < d -> Np.is_busday hol e' = true ->
  (forall x, e' < x < d -> Np.is_busday hol x = false) ->
  e = e'.
Proof.
  intros He Hb Hmin He' Hb' Hmin'.
  destruct (Z.lt_trichotomy e e') as [Hlt | [Heq | Hgt]]; [| assumption |].
  - rewrite (Hmin e') in Hb' by lia. discriminate.
  - rewrite (Hmin' e) in Hb by lia. discriminate.
Qed.

Lemma prev_next (d : Z) :
  Np.is_busday hol d = true ->
  Np.prev_busday hol (Np.next_busday hol d) = d.
Proof.
  intros Hd.
  destruct (NpFacts.next_busday_spec hol d) as [Hlt [Hb Hmin]].
  destruct (NpFacts.prev_busday_spec hol (Np.next_busday hol d))
    as [Hlt' [Hb' Hmin']].
  apply (first_before_unique (Np.next_busday hol d)); try assumption.
Qed.

Lemma next_prev (d : Z) :
  Np.is_busday hol d = true ->
  Np.next_busday hol (Np.prev_busday hol d) = d.
Proof.
  intros Hd.
  destruct (NpFacts.prev_busday_spec hol d) as [Hlt [Hb Hmin]].
  destruct (NpFacts.next_busday_spec hol (Np.prev_busday hol d))
    as [Hlt' [Hb' Hmin']].
  apply (first_after_unique (Np.prev_busday hol d)); try assumption.
Qed.

(** The forward roll of [d + 1] is the business day after [d]. *)
Lemma next_busday_snap (d : Z) :
  Np.next_busday hol d = snap_forward hol (d + 1).
Proof.
  destruct (NpFacts.next_busday_spec hol d) as [Hlt [Hb Hmin]].
  unfold snap_forward. destruct (Np.is_busday hol (d + 1)) eqn:H1.
  - destruct (Z.eq_dec (Np.next_busday hol d) (d + 1)) as [| Hne];
      [assumption |].
    rewrite (Hmin (d + 1)) in H1 by lia. discriminate.
  - destruct (NpFacts.next_busday_spec hol (d + 1)) as [Hlt' [Hb' Hmin']].
    apply (first_after_unique d); try assumption; try lia.
    intros x Hx. destruct (Z.eq_dec x (d + 1)) as [-> | Hne];
      [assumption | apply Hmin'; lia].
Qed.

Lemma steps_succ (f : Z -> Z) (n : nat) (d : Z) :
  Np.steps f (S n) d = f (Np.steps f n d).
Proof.
  revert d. induction n as [| n IH]; intros d; [reflexivity |].
  change (Np.steps f (S (S n)) d) with (Np.steps f (S n) (f d)).
  rewrite IH. reflexivity.
Qed.

Lemma shift_nat (d : Z) (k : nat) :
  Np.shift hol d (Z.of_nat k) = Np.steps (Np.next_busday hol) k d.
Proof.
  unfold Np.shift. destruct k as [| k]; [reflexivity |].
  replace (0 <? Z.of_nat (S k)) with true by (symmetry; apply Z.ltb_lt; lia).
  now rewrite Nat2Z.id.
Qed.

Lemma shift_neg_nat (d : Z) (k : nat) :
  Np.shift hol d (- Z.of_nat k) = Np.steps (Np.prev_busday hol) k d.
Proof.
  unfold Np.shift. destruct k as [| k]; [reflexivity |].
  replace (0 <? - Z.of_nat (S k)) with false
    by (symmetry; apply Z.ltb_ge; lia).
  replace (- Z.of_nat (S k) <? 0) with true by (symmetry; apply Z.ltb_lt; lia).
  now rewrite Z.opp_involutive, Nat2Z.id.
Qed.

(** One more business day forward, one more backward. *)
Lemma shift_succ (d n : Z) :
  Np.is_busday hol d = true ->
  Np.shift hol d (n + 1) = Np.next_busday hol (Np.shift hol d n).
Proof.
  intros Hd. destruct (Z.le_gt_cases 0 n) as [Hn | Hn].
  - replace n with (Z.of_nat (Z.to_nat n)) by lia.
    replace (Z.of_nat (Z.to_nat n) + 1) with (Z.of_nat (S (Z.to_nat n))) by lia.
    now rewrite !shift_nat, steps_succ.
  - replace n with (- Z.of_nat (S (Z.to_nat (- n - 1)))) by lia.
    replace (- Z.of_nat (S (Z.to_nat (- n - 1))) + 1)
      with (- Z.of_nat (Z.to_nat (- n - 1))) by lia.
    rewrite !shift_neg_nat, steps_succ, next_prev; [reflexivity |].
    apply NpFacts.steps_busday; [| assumption].
    intros x. apply NpFacts.prev_busday_spec.
Qed.

Lemma shift_pred (d n : Z) :
  Np.is_busday hol d = true ->
  Np.shift hol d (n - 1) = Np.prev_busday hol (Np.shift hol d n).
Proof.
  intros Hd. destruct (Z.le_gt_cases n 0) as [Hn | Hn].
  - replace n with (- Z.of_nat (Z.to_nat (- n))) by lia.
    replace (- Z.of_nat (Z.to_nat (- n)) - 1)
      with (- Z.of_nat (S (Z.to_nat (- n)))) by lia.
    now rewrite !shift_neg_nat, steps_succ.
  - replace n with (Z.of_nat (S (Z.to_nat (n - 1)))) by lia.
    replace (Z.of_nat (S (Z.to_nat (n - 1))) - 1)
      with (Z.of_nat (Z.to_nat (n - 1))) by lia.
    rewrite !shift_nat, steps_succ, prev_next; [reflexivity |].
    apply NpFacts.steps_busday; [| assumption].
    intros x. apply NpFacts.next_busday_spec.
Qed.

(** Offsets add up on business days. *)
Lemma shift_add (d n m : Z) :
  Np.is_busday hol d = true ->
  Np.shift hol (Np.shift hol d n) m = Np.shift hol d (n + m).
Proof.
  intros Hd.
  pose proof (NpFacts.shift_busday hol d n Hd) as Hn.
  pattern m. apply Z.peano_ind; clear m.
  - replace (n + 0) with n by lia. reflexivity.
  - intros m IH. unfold Z.succ.
    replace (n + (m + 1)) with (n + m + 1) by lia.
    now rewrite !shift_succ, IH by assumption.
  - intros m IH. unfold Z.pred.
    replace (n + (m + -1)) with (n + m - 1) by lia.
    replace (m + -1) with (m - 1) by lia.
    now rewrite !shift_pred, IH by assumption.
Qed.

(** A larger offset gives a later date. *)
Lemma shift_increasing (d n m : Z) :
  Np.is_busday hol d = true -> n < m ->
  Np.shift hol d n < Np.shift hol d m.
Proof.
  intros Hd Hlt.
  replace m with (n + Z.of_nat (S (Z.to_nat (m - n - 1)))) by lia.
  generalize (Z.to_nat (m - n - 1)) as k.
  induction k as [| k IH].
  - change (Z.of_nat 1) with 1. rewrite shift_succ by assumption.
    apply NpFacts.next_busday_spec.
  - replace (n + Z.of_nat (S (S k))) with (n + Z.of_nat (S k) + 1) by lia.
    rewrite shift_succ by assumption.
    pose proof (NpFacts.next_busday_spec hol
                  (Np.shift hol d (n + Z.of_nat (S k)))) as [H _].
    lia.
Qed.

End CalendarOrder.

(** ** Further properties of [workday] *)

(** Under a forward or a backward token, [workday] on one date is a roll
    to a business day followed by a shift. *)
Lemma workday_day_form (hol : list Z) (rolagem : string) :
  lower rolagem = "posterior" \/ lower rolagem = "anterior" \/
  rolagem = "forward" \/ rolagem = "backward" ->
  exists snap : Z -> Z,
    (snap = snap_forward hol \/ snap = snap_backward hol) /\
    forall d n, workday hol [Day d] n rolagem
                = Ok [Day (Np.shift hol (snap d) n)].
Proof.
  intros [H | [H | [-> | ->]]].
  - exists (snap_forward hol). split; [now left |]. intros d n.
    rewrite <- workday_forward_day. unfold workday. now rewrite H.
  - exists (snap_backward hol). split; [now right |]. intros d n.
    rewrite <- workday_backward_day. unfold workday.
    replace (String.eqb (lower rolagem) "posterior") with false
      by now rewrite H.
    now rewrite H.
  - exists (snap_forward hol). split; [now left |]. apply workday_forward_day.
  - exists (snap_backward hol). split; [now right |]. apply workday_backward_day.
Qed.

Lemma snap_busday (hol : list Z) (snap : Z -> Z) (d : Z) :
  snap = snap_forward hol \/ snap = snap_backward hol ->
  Np.is_busday hol (snap d) = true.
Proof.
  intros [-> | ->]; [apply snap_forward_busday | apply snap_backward_busday].
Qed.

Lemma snap_fixes_busday (hol : list Z) (snap : Z -> Z) (d : Z) :
  snap = snap_forward hol \/ snap = snap_backward hol ->
  Np.is_busday hol d = true -> snap d = d.
Proof.
  intros [-> | ->] Hd; unfold snap_forward, snap_backward; now rewrite Hd.
Qed.

(** Offsets compose: shifting the result of [workday] by [m] more
    business days, with the same roll, is [workday] with the sum of the
    offsets, whatever the signs. *)
Theorem workday_offsets_add (hol : list Z) (d n m : Z) (rolagem : string) :
  lower rolagem = "posterior" \/ lower rolagem = "anterior" \/
  rolagem = "forward" \/ rolagem = "backward" ->
  exists e,
    workday hol [Day d] n rolagem = Ok [Day e] /\
    workday hol [Day e] m rolagem = workday hol [Day d] (n + m) rolagem.
Proof.
  intros Hr. destruct (workday_day_form hol rolagem Hr) as [snap [Hs Hw]].
  exists (Np.shift hol (snap d) n). split; [apply Hw |].
  rewrite !Hw.
  pose proof (snap_busday hol snap d Hs) as Hb.
  rewrite (snap_fixes_busday hol snap _ Hs (NpFacts.shift_busday hol _ n Hb)).
  now rewrite shift_add.
Qed.

Lemma workday_offsets_add_witness :
  exists e,
    workday [19725] [Day 19728] 3 "Anterior" = Ok [Day e] /\
    workday [19725] [Day e] (-5) "Anterior"
      = workday [19725] [Day 19728] (3 + -5) "Anterior".
Proof.
  apply (workday_offsets_add [19725] 19728 3 (-5) "Anterior").
  right. left. reflexivity.
Defined.

(** A larger offset gives a strictly later date: [workday] is strictly
    increasing, hence one-to-one, in its offset. *)
Theorem workday_increasing (hol : list Z) (d n m : Z) (rolagem : string) :
  lower rolagem = "posterior" \/ lower rolagem = "anterior" \/
  rolagem = "forward" \/ rolagem = "backward" ->
  n < m ->
  exists e e',
    workday hol [Day d] n rolagem = Ok [Day e] /\
    workday hol [Day d] m rolagem = Ok [Day e'] /\
    e < e'.
Proof.
  intros Hr Hlt. destruct (workday_day_form hol rolagem Hr) as [snap [Hs Hw]].
  exists (Np.shift hol (snap d) n), (Np.shift hol (snap d) m).
  split; [apply Hw |]. split; [apply Hw |].
  apply shift_increasing; [now apply snap_busday | assumption].
Qed.

Lemma workday_increasing_witness :
  exists e e',
    workday [19725] [Day 19728] (-2) "forward" = Ok [Day e] /\
    workday [19725] [Day 19728] 1 "forward" = Ok [Day e'] /\
    e < e'.
Proof.
  apply (workday_increasing [19725] 19728 (-2) 1 "forward");
    [right; right; left; reflexivity | lia].
Defined.

(** With offset 0 and the forward roll, [workday] returns the first
    business day on or after the date; with the backward roll, the last
    business day on or before it.  A business day is returned as it is. *)
Theorem workday_zero_snaps (hol : list Z) (d : Z) :
  (exists e,
     workday hol [Day d] 0 "forward" = Ok [Day e] /\
     d <= e /\ Np.is_busday hol e = true /\
     forall x, d <= x < e -> Np.is_busday hol x = false) /\
  (exists e,
     workday hol [Day d] 0 "backward" = Ok [Day e] /\
     e <= d /\ Np.is_busday hol e = true /\
     forall x, e < x <= d -> Np.is_busday hol x = false).
Proof.
  split.
  - exists (snap_forward hol d). split; [apply (workday_forward_day hol d 0) |].
    unfold snap_forward. destruct (Np.is_busday hol d) eqn:Hd.
    + repeat split; [lia | assumption | intros x Hx; lia].
    + destruct (NpFacts.next_busday_spec hol d) as [Hlt [Hb Hmin]].
      repeat split; [lia | assumption |]. intros x Hx.
      destruct (Z.eq_dec x d) as [-> | Hne]; [assumption | apply Hmin; lia].
  - exists (snap_backward hol d). split; [apply (workday_backward_day hol d 0) |].
    unfold snap_backward. destruct (Np.is_busday hol d) eqn:Hd.
    + repeat split; [lia | assumption | intros x Hx; lia].
    + destruct (NpFacts.prev_busday_spec hol d) as [Hlt [Hb Hmin]].
      repeat split; [lia | assumption |]. intros x Hx.
      destruct (Z.eq_dec x d) as [-> | Hne]; [assumption | apply Hmin; lia].
Qed.

Lemma count_before_snap (hol : list Z) (d : Z) :
  d <= snap_forward hol d /\
  Np.count_from hol d (Z.to_nat (snap_forward hol d - d)) = 0.
Proof.
  unfold snap_forward. destruct (Np.is_busday hol d) eqn:Hd.
  - split; [lia |]. now replace (d - d) with 0 by lia.
  - destruct (NpFacts.next_busday_spec hol d) as [Hlt [_ Hmin]].
    split; [lia |]. apply NpFacts.count_from_none. intros x Hx.
    destruct (Z.eq_dec x d) as [-> | Hne]; [assumption | apply Hmin; lia].
Qed.

(** For every date, business day or not, and every [n >= 0]:
    [networkdays] from the date to the date [workday] returns for the
    offset [n] under the forward roll is [n]. *)
Theorem networkdays_to_workday (hol : list Z) (d n : Z) :
  0 <= n ->
  exists e,
    workday hol [Day d] n "forward" = Ok [Day e] /\
    d <= e /\
    networkdays hol [Day d] [Day e] = Ok [n].
Proof.
  intros Hn. exists (Np.shift hol (snap_forward hol d) n).
  split; [apply workday_forward_day |].
  destruct (count_before_snap hol d) as [Hle Hzero].
  pose proof (snap_forward_busday hol d) as Hb.
  replace n with (Z.of_nat (Z.to_nat n)) by lia. rewrite shift_nat.
  destruct (NpFacts.count_steps_next hol (Z.to_nat n) _ Hb) as [Hle' Hcount].
  split; [lia |].
  rewrite networkdays_forward by lia.
  replace (Z.to_nat (Np.steps (Np.next_busday hol) (Z.to_nat n)
                       (snap_forward hol d) - d))
    with (Z.to_nat (snap_forward hol d - d)
          + Z.to_nat (Np.steps (Np.next_busday hol) (Z.to_nat n)
                        (snap_forward hol d) - snap_forward hol d))%nat by lia.
  rewrite NpFacts.count_from_app, Hzero.
  replace (d + Z.of_nat (Z.to_nat (snap_forward hol d - d)))
    with (snap_forward hol d) by lia.
  now rewrite Hcount.
Qed.

Lemma networkdays_to_workday_witness :
  exists e,
    workday [19725] [Day 19728] 4 "forward" = Ok [Day e] /\
    19728 <= e /\
    networkdays [19725] [Day 19728] [Day e] = Ok [4].
Proof. apply (networkdays_to_workday [19725] 19728 4). lia. Defined.

(** For a business day [d] and [n >= 0]: [networkdays] from the date
    [workday] returns for the offset [- n] up to [d] is [n]. *)
Theorem networkdays_from_workday_back (hol : list Z) (d n : Z)
    (rolagem : string) :
  lower rolagem = "posterior" \/ lower rolagem = "anterior" \/
  rolagem = "forward" \/ rolagem = "backward" ->
  Np.is_busday hol d = true ->
  0 <= n ->
  exists e,
    workday hol [Day d] (- n) rolagem = Ok [Day e] /\
    e <= d /\
    networkdays hol [Day e] [Day d] = Ok [n].
Proof.
  intros Hr Hd Hn. destruct (workday_day_form hol rolagem Hr) as [snap [Hs Hw]].
  exists (Np.shift hol d (- n)).
  split; [rewrite Hw; now rewrite (snap_fixes_busday hol snap d Hs Hd) |].
  pose proof (NpFacts.shift_busday hol d (- n) Hd) as Hb.
  assert (Hback : Np.shift hol (Np.shift hol d (- n)) n = d).
  { rewrite shift_add by assumption. now replace (- n + n) with 0 by lia. }
  replace n with (Z.of_nat (Z.to_nat n)) in Hback at 2 by lia.
  rewrite shift_nat in Hback.
  destruct (NpFacts.count_steps_next hol (Z.to_nat n) _ Hb) as [Hle Hcount].
  rewrite Hback in Hle, Hcount.
  split; [assumption |].
  rewrite networkdays_forward by assumption. rewrite Hcount.
  now rewrite Z2Nat.id by lia.
Qed.

Lemma networkdays_from_workday_back_witness :
  exists e,
    workday [19725] [Day 19730] (- 4) "anterior" = Ok [Day e] /\
    e <= 19730 /\
    networkdays [19725] [Day e] [Day 19730] = Ok [4].
Proof.
  apply (networkdays_from_workday_back [19725] 19730 4 "anterior");
    [right; left; reflexivity | reflexivity | lia].
Defined.

(** ** Further properties of [networkdays] *)

Lemma count_from_upper hol n : forall d, Np.count_from hol d n <= Z.of_nat n.
Proof.
  induction n as [| n IH]; intros d; [simpl; lia |].
  cbn [Np.count_from]. specialize (IH (d + 1)).
  destruct (Np.is_busday hol d); lia.
Qed.

(** The count lies between 0 and the number of calendar days from start
    to end, with the sign of the direction. *)
Theorem networkdays_bounds (hol : list Z) (s e : Z) :
  exists n,
    networkdays hol [Day s] [Day e] = Ok [n] /\
    (s <= e -> 0 <= n <= e - s) /\
    (e <= s -> e - s <= n <= 0).
Proof.
  rewrite networkdays_days. eexists. split; [reflexivity |].
  destruct (Z.eqb_spec s e) as [-> | Hne]; [lia |].
  destruct (Z.ltb_spec s e) as [Hlt | Hge].
  - pose proof (NpFacts.count_from_nonneg hol (Z.to_nat (e - s)) s).
    pose proof (count_from_upper hol (Z.to_nat (e - s)) s). lia.
  - pose proof (NpFacts.count_from_nonneg hol (Z.to_nat (s - e)) (e + 1)).
    pose proof (count_from_upper hol (Z.to_nat (s - e)) (e + 1)). lia.
Qed.

(** Counts of adjoining ranges add up: for [a <= b <= c] the count from
    [a] to [c] is the count from [a] to [b] plus the count from [b] to
    [c]. *)
Theorem networkdays_additive (hol : list Z) (a b c : Z) :
  a <= b -> b <= c ->
  exists x y,
    networkdays hol [Day a] [Day b] = Ok [x] /\
    networkdays hol [Day b] [Day c] = Ok [y] /\
    networkdays hol [Day a] [Day c] = Ok [x + y].
Proof.
  intros Hab Hbc. rewrite !networkdays_forward by lia.
  do 2 eexists. split; [reflexivity |]. split; [reflexivity |].
  replace (Z.to_nat (c - a)) with (Z.to_nat (b - a) + Z.to_nat (c - b))%nat
    by lia.
  rewrite NpFacts.count_from_app.
  now replace (a + Z.of_nat (Z.to_nat (b - a))) with b by lia.
Qed.

Lemma networkdays_additive_witness :
  exists x y,
    networkdays [19725] [Day 19720] [Day 19726] = Ok [x] /\
    networkdays [19725] [Day 19726] [Day 19740] = Ok [y] /\
    networkdays [19725] [Day 19720] [Day 19740] = Ok [x + y].
Proof. apply (networkdays_additive [19725] 19720 19726 19740); lia. Defined.

(** *** Whole weeks *)

Lemma is_weekend_mod (d i : Z) :
  Np.is_weekend (d + i) = (5 <=? (Np.get_day_of_week d + i) mod 7).
Proof.
  unfold Np.is_weekend, Np.get_day_of_week.
  replace (d + i - 4) with ((d - 4) + i) by lia.
  now rewrite <- Zplus_mod_idemp_l.
Qed.

Lemma count_week (d : Z) : Np.count_from [] d 7 = 5.
Proof.
  cbn [Np.count_from]. rewrite !NpFacts.is_busday_nil.
  replace (d + 1 + 1 + 1 + 1 + 1 + 1) with (d + 6) by lia.
  replace (d + 1 + 1 + 1 + 1 + 1) with (d + 5) by lia.
  replace (d + 1 + 1 + 1 + 1) with (d + 4) by lia.
  replace (d + 1 + 1 + 1) with (d + 3) by lia.
  replace (d + 1 + 1) with (d + 2) by lia.
  replace d with (d + 0) at 1 by lia.
  rewrite !is_weekend_mod.
  assert (Hr : 0 <= Np.get_day_of_week d < 7)
    by (unfold Np.get_day_of_week; apply Z.mod_pos_bound; lia).
  assert (Hcases : Np.get_day_of_week d = 0 \/ Np.get_day_of_week d = 1 \/
                   Np.get_day_of_week d = 2 \/ Np.get_day_of_week d = 3 \/
                   Np.get_day_of_week d = 4 \/ Np.get_day_of_week d = 5 \/
                   Np.get_day_of_week d = 6) by lia.
  destruct Hcases as [H | [H | [H | [H | [H | [H | H]]]]]];
    rewrite H; reflexivity.
Qed.

Lemma count_weeks (k : nat) : forall d,
  Np.count_from [] d (7 * k) = 5 * Z.of_nat k.
Proof.
  induction k as [| k IH]; intros d; [reflexivity |].
  replace (7 * S k)%nat with (7 + 7 * k)%nat by lia.
  rewrite NpFacts.count_from_app, count_week, IH. lia.
Qed.

(** Without holidays, a span of [k] whole weeks holds [5 k] business
    days, whatever the day of the week it starts on. *)
Theorem networkdays_whole_weeks (d k : Z) :
  0 <= k ->
  networkdays [] [Day d] [Day (d + 7 * k)] = Ok [5 * k].
Proof.
  intros Hk. rewrite networkdays_forward by lia.
  replace (Z.to_nat (d + 7 * k - d)) with (7 * Z.to_nat k)%nat by lia.
  rewrite count_weeks. now rewrite Z2Nat.id by lia.
Qed.

Lemma networkdays_whole_weeks_witness :
  networkdays [] [Day 19728] [Day (19728 + 7 * 3)] = Ok [5 * 3].
Proof. apply (networkdays_whole_weeks 19728 3). lia. Defined.

(** *** Broadcasting *)

Lemma busday_count1_days hol b e :
  exists n, Np.busday_count1 hol (Day b) (Day e) = Ok n.
Proof.
  simpl. destruct (b =? e); [eauto |]. destruct (b <? e); eauto.
Qed.

Lemma networkdays_single hol b e n :
  networkdays hol [b] [e] = Ok [n] <-> Np.busday_count1 hol b e = Ok n.
Proof.
  rewrite networkdays_pair. split.
  - intros H. apply bind_Ok in H as [n' [Hn' [= ->]]]. assumption.
  - intros ->. reflexivity.
Qed.

Lemma np_repeat_one (x : datetime64) (n : nat) :
  np_repeat [x] n = List.repeat x n.
Proof. unfold np_repeat. simpl. apply app_nil_r. Qed.

Lemma combine_repeat_l {A B : Type} (x : A) (l : list B) :
  combine (List.repeat x (List.length l)) l = map (fun y => (x, y)) l.
Proof. induction l as [| y l IH]; simpl; [reflexivity | now rewrite IH]. Qed.

Lemma combine_repeat_r {A B : Type} (y : B) (l : list A) :
  combine l (List.repeat y (List.length l)) = map (fun x => (x, y)) l.
Proof. induction l as [| x l IH]; simpl; [reflexivity | now rewrite IH]. Qed.

Lemma mapM_map_in {A B C : Type} (f : B -> result C) (g : A -> B) (l : list A) :
  mapM f (map g l) = mapM (fun x => f (g x)) l.
Proof. induction l as [| x l IH]; simpl; [reflexivity | now rewrite IH]. Qed.

Lemma broadcast_single_l (d : datetime64) (es : list datetime64) :
  broadcast [d] es = Ok (List.repeat d (List.length es), es).
Proof.
  unfold broadcast. cbn [List.length].
  destruct (Nat.eqb_spec 1 (List.length es)) as [H1 | H1];
    cbn [negb Nat.eqb bind].
  - destruct es as [| e [| e' es]]; try discriminate. reflexivity.
  - rewrite np_repeat_one. apply stack2_same. now rewrite repeat_length.
Qed.

Lemma broadcast_single_r (ss : list datetime64) (d : datetime64) :
  broadcast ss [d] = Ok (ss, List.repeat d (List.length ss)).
Proof.
  unfold broadcast. cbn [List.length].
  destruct (Nat.eqb_spec (List.length ss) 1) as [H1 | H1];
    cbn [negb Nat.eqb bind].
  - destruct ss as [| e [| e' ss]]; try discriminate. reflexivity.
  - rewrite np_repeat_one. apply stack2_same. now rewrite repeat_length.
Qed.

(** A single start date is paired with every end date, and a single end
    date with every start date: the result has one count per date of the
    longer side, in order, each the count [networkdays] gives for that
    pair alone. *)
Theorem networkdays_broadcast (hol : list Z) (d : Z) (ds : list Z) :
  (exists ns,
     networkdays hol [Day d] (map Day ds) = Ok ns /\
     Forall2 (fun e n => networkdays hol [Day d] [Day e] = Ok [n]) ds ns) /\
  (exists ns,
     networkdays hol (map Day ds) [Day d] = Ok ns /\
     Forall2 (fun s n => networkdays hol [Day s] [Day d] = Ok [n]) ds ns).
Proof.
  split.
  - unfold networkdays at 1. rewrite broadcast_single_l. cbn [bind].
    unfold Np.busday_count. rewrite combine_repeat_l, !mapM_map_in.
    cbn [fst snd].
    induction ds as [| e ds [ns [Hns Hall]]]; [exists []; split; constructor |].
    destruct (busday_count1_days hol d e) as [n Hn].
    exists (n :: ns). split.
    + cbn [mapM]. rewrite Hn, Hns. reflexivity.
    + constructor; [now apply networkdays_single | assumption].
  - unfold networkdays at 1. rewrite broadcast_single_r. cbn [bind].
    unfold Np.busday_count. rewrite combine_repeat_r, !mapM_map_in.
    cbn [fst snd].
    induction ds as [| s ds [ns [Hns Hall]]]; [exists []; split; constructor |].
    destruct (busday_count1_days hol s d) as [n Hn].
    exists (n :: ns). split.
    + cbn [mapM]. rewrite Hn, Hns. reflexivity.
    + constructor; [now apply networkdays_single | assumption].
Qed.

(** *** Empty arrays and missing dates *)

(** An empty array against an array of at most one date gives the empty
    result; against a longer array the call fails when the two arrays are
    stacked, not with the error of the two lengths. *)
Theorem networkdays_empty (hol : list Z) (b : list datetime64) :
  ((List.length b <= 1)%nat ->
   networkdays hol [] b = Ok [] /\ networkdays hol b [] = Ok []) /\
  ((1 < List.length b)%nat ->
   networkdays hol [] b = Err (InhomogeneousShape 0 (List.length b)) /\
   networkdays hol b [] = Err (InhomogeneousShape (List.length b) 0)).
Proof.
  destruct b as [| x [| y b]]; split; simpl; intros H; try lia;
    split; reflexivity.
Qed.

Lemma networkdays_empty_witness :
  (networkdays [19725] [] [Day 19723] = Ok [] /\
   networkdays [19725] [Day 19723] [] = Ok []) /\
  (networkdays [19725] [] [Day 19723; Day 19724]
     = Err (InhomogeneousShape 0 2) /\
   networkdays [19725] [Day 19723; Day 19724] []
     = Err (InhomogeneousShape 2 0)).
Proof.
  split.
  - apply (proj1 (networkdays_empty [19725] [Day 19723])). simpl. lia.
  - apply (proj2 (networkdays_empty [19725] [Day 19723; Day 19724])).
    simpl. lia.
Defined.

Lemma busday_count_NaT hol (a b : list datetime64) :
  List.length a = List.length b ->
  In NaT a \/ In NaT b ->
  Np.busday_count hol a b = Err NaTInCount.
Proof.
  unfold Np.busday_count. revert b.
  induction a as [| x a IH]; intros [| y b] Hlen Hin; try discriminate.
  - destruct Hin as [[] | []].
  - cbn [combine mapM fst snd].
    destruct x as [| s]; [reflexivity |].
    destruct y as [| e]; [reflexivity |].
    destruct (busday_count1_days hol s e) as [n ->]. cbn [bind].
    rewrite IH; [reflexivity | simpl in Hlen; lia |].
    destruct Hin as [[Hx | Hin] | [Hy | Hin]]; try discriminate; auto.
Qed.

(** Two arrays of one length: with dates only, [networkdays] returns one
    count per aligned pair, in order; with a [NaT] anywhere, it fails. *)
Theorem networkdays_aligned (hol : list Z) :
  (forall ss es : list Z,
     List.length ss = List.length es ->
     exists ns,
       networkdays hol (map Day ss) (map Day es) = Ok ns /\
       Forall2 (fun p n => networkdays hol [Day (fst p)] [Day (snd p)] = Ok [n])
               (combine ss es) ns) /\
  (forall a b : list datetime64,
     List.length a = List.length b ->
     In NaT a \/ In NaT b ->
     networkdays hol a b = Err NaTInCount).
Proof.
  split.
  - intros ss es Hlen. unfold networkdays at 1, broadcast.
    rewrite !length_map, Hlen, Nat.eqb_refl. cbn [negb bind].
    rewrite stack2_same by now rewrite !length_map. cbn [bind].
    unfold Np.busday_count. clear Hlen. revert es.
    induction ss as [| s ss IH]; intros [| e es];
      try (exists []; split; constructor).
    destruct (IH es) as [ns [Hns Hall]].
    destruct (busday_count1_days hol s e) as [n Hn].
    exists (n :: ns). split.
    + cbn [map combine mapM fst snd]. rewrite Hn. cbn [bind].
      rewrite Hns. reflexivity.
    + cbn [combine]. constructor; [now apply networkdays_single | assumption].
  - intros a b Hlen Hin. unfold networkdays, broadcast.
    rewrite Hlen, Nat.eqb_refl. cbn [negb bind].
    rewrite stack2_same by assumption. cbn [bind].
    now apply busday_count_NaT.
Qed.

Lemma networkdays_aligned_witness :
  (exists ns,
     networkdays [19725] (map Day [19723; 19728]) (map Day [19730; 19720])
       = Ok ns /\
     Forall2 (fun p n =>
                networkdays [19725] [Day (fst p)] [Day (snd p)] = Ok [n])
             (combine [19723; 19728] [19730; 19720]) ns) /\
  networkdays [19725] [Day 19723; NaT] [Day 19730; Day 19720]
    = Err NaTInCount.
Proof.
  split.
  - apply (proj1 (networkdays_aligned [19725]) [19723; 19728] [19730; 19720]).
    reflexivity.
  - apply (proj2 (networkdays_aligned [19725])
             [Day 19723; NaT] [Day 19730; Day 19720]);
      [reflexivity | left; right; left; reflexivity].
Defined.

(** ** The holidays as a set of weekdays *)

Section SameHolidays.

Variables hol hol' : list Z.
Hypothesis Hsame : same_weekday_holidays hol hol'.

Lemma is_busday_same (d : Z) : Np.is_busday hol d = Np.is_busday hol' d.
Proof.
  unfold Np.is_busday. destruct (Np.is_weekend d) eqn:Hw; [reflexivity |].
  simpl. f_equal. specialize (Hsame d Hw).
  destruct (Np.is_holiday hol d) eqn:H1, (Np.is_holiday hol' d) eqn:H2;
    try reflexivity.
  - apply NpFacts.is_holiday_In, Hsame, NpFacts.is_holiday_In in H1. congruence.
  - apply NpFacts.is_holiday_In, Hsame, NpFacts.is_holiday_In in H2. congruence.
Qed.

Lemma count_from_same (n : nat) : forall d,
  Np.count_from hol d n = Np.count_from hol' d n.
Proof.
  induction n as [| n IH]; intros d; simpl; [reflexivity |].
  now rewrite is_busday_same, IH.
Qed.

Lemma next_busday_same (d : Z) : Np.next_busday hol d = Np.next_busday hol' d.
Proof.
  destruct (NpFacts.next_busday_spec hol d) as [Hlt [Hb Hmin]].
  destruct (NpFacts.next_busday_spec hol' d) as [Hlt' [Hb' Hmin']].
  apply (first_after_unique hol d); try assumption.
  - now rewrite is_busday_same.
  - intros x Hx. rewrite is_busday_same. now apply Hmin'.
Qed.

Lemma prev_busday_same (d : Z) : Np.prev_busday hol d = Np.prev_busday hol' d.
Proof.
  destruct (NpFacts.prev_busday_spec hol d) as [Hlt [Hb Hmin]].
  destruct (NpFacts.prev_busday_spec hol' d) as [Hlt' [Hb' Hmin']].
  apply (first_before_unique hol d); try assumption.
  - now rewrite is_busday_same.
  - intros x Hx. rewrite is_busday_same. now apply Hmin'.
Qed.

Lemma steps_ext (f g : Z -> Z) (n : nat) :
  (forall x, f x = g x) -> forall d, Np.steps f n d = Np.steps g n d.
Proof.
  intros Hfg. induction n as [| n IH]; intros d; simpl; [reflexivity |].
  now rewrite Hfg, IH.
Qed.

Lemma shift_same (d offset : Z) : Np.shift hol d offset = Np.shift hol' d offset.
Proof.
  unfold Np.shift.
  rewrite (steps_ext _ _ _ next_busday_same), (steps_ext _ _ _ prev_busday_same).
  reflexivity.
Qed.

Lemma mapM_ext {A B : Type} (f g : A -> result B) (l : list A) :
  (forall x, f x = g x) -> mapM f l = mapM g l.
Proof.
  intros Hfg. induction l as [| x l IH]; simpl; [reflexivity |].
  now rewrite Hfg, IH.
Qed.

Lemma apply_business_day_offset_same r offset x :
  Np.apply_business_day_offset hol r offset x
  = Np.apply_business_day_offset hol' r offset x.
Proof.
  unfold Np.apply_business_day_offset, Np.apply_business_day_roll.
  destruct x as [| d]; [destruct r; reflexivity |].
  rewrite is_busday_same, next_busday_same, prev_busday_same.
  destruct (Np.is_busday hol' d); simpl; [now rewrite shift_same |].
  destruct r; simpl; try reflexivity; try (now rewrite shift_same);
    destruct (_ =? _); simpl; now rewrite shift_same.
Qed.

Lemma networkdays_same a b : networkdays hol a b = networkdays hol' a b.
Proof.
  unfold networkdays. destruct (broadcast a b) as [[a' b'] | e]; [| reflexivity].
  simpl. unfold Np.busday_count. apply mapM_ext. intros [x y]. simpl.
  destruct x as [| s], y as [| e]; try reflexivity. simpl.
  now rewrite !count_from_same.
Qed.

Lemma workday_same ds n rolagem :
  workday hol ds n rolagem = workday hol' ds n rolagem.
Proof.
  unfold workday, Np.busday_offset.
  destruct (Np.roll_converter _) as [r | e]; [| reflexivity]. simpl.
  apply mapM_ext. intros x. apply apply_business_day_offset_same.
Qed.

Lemma pair_dates_same di df : pair_dates hol di df = pair_dates hol' di df.
Proof.
  unfold pair_dates. rewrite networkdays_same.
  destruct (networkdays hol' [di] [df]) as [[| n ns] | e]; try reflexivity.
  simpl. erewrite mapM_ext; [reflexivity |]. intros i. apply workday_same.
Qed.

Lemma work_dates_same a b rolagem :
  work_dates hol a b rolagem = work_dates hol' a b rolagem.
Proof.
  unfold work_dates, work_dates_rows.
  destruct (work_dates_pairs a b rolagem) as [pairs | e]; [| reflexivity].
  simpl. erewrite mapM_ext; [reflexivity |]. intros [di df].
  apply pair_dates_same.
Qed.

End SameHolidays.

(** Only the weekdays among the holidays matter: two holiday arrays that
    hold the same weekdays, in any order, with any repetitions and any
    weekend dates besides, give the same results in [networkdays],
    [workday] and [work_dates]. *)
Theorem holidays_as_weekday_set (hol hol' : list Z) :
  same_weekday_holidays hol hol' ->
  (forall a b, networkdays hol a b = networkdays hol' a b) /\
  (forall ds n rolagem, workday hol ds n rolagem = workday hol' ds n rolagem) /\
  (forall a b rolagem, work_dates hol a b rolagem = work_dates hol' a b rolagem).
Proof.
  intros H. split; [| split]; intros.
  - now apply networkdays_same.
  - now apply workday_same.
  - now apply work_dates_same.
Qed.

Lemma holidays_as_weekday_set_witness :
  (forall a b,
     networkdays [19728; 19725; 19725] a b = networkdays [19725] a b) /\
  (forall ds n rolagem,
     workday [19728; 19725; 19725] ds n rolagem = workday [19725] ds n rolagem) /\
  (forall a b rolagem,
     work_dates [19728; 19725; 19725] a b rolagem
     = work_dates [19725] a b rolagem).
Proof.
  apply (holidays_as_weekday_set [19728; 19725; 19725] [19725]).
  intros d Hd. simpl. split.
  - intros [H | [H | [H | []]]]; subst; auto. discriminate Hd.
  - intros [H | []]. subst. auto.
Defined.

(** ** Further properties of [work_dates] *)

Lemma In_days (x : Z) (n : nat) : forall d,
  In x (days d n) <-> d <= x < d + Z.of_nat n.
Proof.
  induction n as [| n IH]; intros d; simpl; [lia |].
  rewrite IH. lia.
Qed.

Lemma days_app (n m : nat) : forall d,
  days d (n + m) = (days d n ++ days (d + Z.of_nat n) m)%list.
Proof.
  induction n as [| n IH]; intros d.
  - simpl. now replace (d + 0) with d by lia.
  - cbn [Nat.add days app]. rewrite IH.
    now replace (d + 1 + Z.of_nat n) with (d + Z.of_nat (S n)) by lia.
Qed.

Lemma count_from_filter hol (n : nat) : forall d,
  Np.count_from hol d n
  = Z.of_nat (List.length (filter (Np.is_busday hol) (days d n))).
Proof.
  induction n as [| n IH]; intros d; [reflexivity |].
  cbn [Np.count_from days filter]. rewrite IH.
  destruct (Np.is_busday hol d); cbn [List.length]; lia.
Qed.

Lemma snap_forward_skip hol d :
  Np.is_busday hol d = false -> snap_forward hol d = snap_forward hol (d + 1).
Proof.
  intros Hd. rewrite <- next_busday_snap. unfold snap_forward. now rewrite Hd.
Qed.

(** The business days of a span are the successive business days from
    the forward roll of its first day, and the one after them is the
    forward roll of the day after the span. *)
Lemma filter_days_enumerate hol (n : nat) : forall d,
  filter (Np.is_busday hol) (days d n)
  = map (fun i => Np.steps (Np.next_busday hol) i (snap_forward hol d))
        (seq 0 (List.length (filter (Np.is_busday hol) (days d n)))) /\
  Np.steps (Np.next_busday hol)
           (List.length (filter (Np.is_busday hol) (days d n)))
           (snap_forward hol d)
  = snap_forward hol (d + Z.of_nat n).
Proof.
  induction n as [| n IH]; intros d.
  - simpl. split; [reflexivity | now replace (d + 0) with d by lia].
  - destruct (IH (d + 1)) as [Henum Hlast].
    replace (d + Z.of_nat (S n)) with (d + 1 + Z.of_nat n) by lia.
    cbn [days filter]. destruct (Np.is_busday hol d) eqn:Hd.
    + assert (Hsnap : snap_forward hol d = d)
        by (unfold snap_forward; now rewrite Hd).
      cbn [List.length]. rewrite Hsnap. split.
      * cbn [seq map Np.steps]. f_equal.
        rewrite <- seq_shift, map_map. cbn [Np.steps].
        rewrite next_busday_snap. exact Henum.
      * cbn [Np.steps]. rewrite next_busday_snap. exact Hlast.
    + rewrite (snap_forward_skip hol d Hd). split; assumption.
Qed.

(** The row of a pair whose end is not before its start: the business
    days from the start to the day before the end, then the forward roll
    of the end. *)
Lemma pair_dates_forward hol (s e : Z) :
  s <= e ->
  pair_dates hol (Day s) (Day e)
  = Ok (map Day (filter (Np.is_busday hol) (days s (Z.to_nat (e - s)))
                 ++ [snap_forward hol e])).
Proof.
  intros Hle.
  rewrite (pair_dates_days hol s e _ (networkdays_forward hol s e Hle)).
  destruct (filter_days_enumerate hol (Z.to_nat (e - s)) s) as [Henum Hlast].
  replace (s + Z.of_nat (Z.to_nat (e - s))) with e in Hlast by lia.
  rewrite count_from_filter. unfold range.
  replace (Z.to_nat (Z.of_nat (List.length
             (filter (Np.is_busday hol) (days s (Z.to_nat (e - s))))) + 1))
    with (S (List.length
             (filter (Np.is_busday hol) (days s (Z.to_nat (e - s)))))) by lia.
  rewrite seq_S, !map_app, !map_map. cbn [map Nat.add].
  rewrite shift_nat, Hlast. f_equal. f_equal.
  rewrite Henum at 2. rewrite map_map.
  apply map_ext. intros i. now rewrite shift_nat.
Qed.

Lemma business_days_split hol (s e : Z) :
  s <= e ->
  business_days hol s e
  = (filter (Np.is_busday hol) (days s (Z.to_nat (e - s)))
     ++ (if Np.is_busday hol e then [e] else []))%list.
Proof.
  intros Hle. unfold business_days.
  replace (Z.to_nat (e - s + 1)) with (Z.to_nat (e - s) + 1)%nat by lia.
  rewrite days_app, filter_app.
  replace (s + Z.of_nat (Z.to_nat (e - s))) with e by lia. reflexivity.
Qed.

Lemma work_dates_single hol (s e : Z) (row : list datetime64) :
  pair_dates hol (Day s) (Day e) = Ok row ->
  work_dates hol [Day s] [Day e] None = Ok (map Np.Scalar row).
Proof.
  intros Hrow. unfold work_dates, work_dates_rows, work_dates_pairs.
  cbn [broadcast List.length Nat.eqb negb bind stack2 translate
       work_dates_roll combine mapM fst snd].
  rewrite Hrow. cbn [bind]. unfold Np.flatten_object. simpl.
  now rewrite app_nil_r.
Qed.

(** A single range whose end is not before its start, no roll asked for:
    the result is flat and holds, in increasing order, exactly the
    business days from start to end, both included, when the end is a
    business day; when the end is not a business day, one more date
    follows them, the first business day after the end. *)
Theorem work_dates_range (hol : list Z) (s e : Z) :
  s <= e ->
  work_dates hol [Day s] [Day e] None
  = Ok (map (fun z => Np.Scalar (Day z))
            (business_days hol s e
             ++ (if Np.is_busday hol e then [] else [Np.next_busday hol e]))).
Proof.
  intros Hle.
  rewrite (work_dates_single hol s e _ (pair_dates_forward hol s e Hle)).
  rewrite map_map. do 2 f_equal.
  rewrite business_days_split by assumption. unfold snap_forward.
  destruct (Np.is_busday hol e); now rewrite app_nil_r.
Qed.

Lemma work_dates_range_witness :
  work_dates [19725] [Day 19721] [Day 19728] None
  = Ok (map (fun z => Np.Scalar (Day z))
            (business_days [19725] 19721 19728
             ++ (if Np.is_busday [19725] 19728 then []
                 else [Np.next_busday [19725] 19728]))).
Proof. apply (work_dates_range [19725] 19721 19728). lia. Defined.

(** A single range whose end is before its start, no roll asked for: the
    result is empty when some business day lies after the end and up to
    the start; otherwise (the start is then not a business day) it is the
    one date that is the first business day after the start. *)
Theorem work_dates_reversed_range (hol : list Z) (s e : Z) :
  e < s ->
  work_dates hol [Day s] [Day e] None
  = Ok (match business_days hol (e + 1) s with
        | [] => [Np.Scalar (Day (Np.next_busday hol s))]
        | _ :: _ => []
        end).
Proof.
  intros Hlt.
  assert (Hn : networkdays hol [Day s] [Day e]
               = Ok [- Z.of_nat (List.length (business_days hol (e + 1) s))]).
  { rewrite networkdays_days.
    replace (s =? e) with false by (symmetry; apply Z.eqb_neq; lia).
    replace (s <? e) with false by (symmetry; apply Z.ltb_ge; lia).
    rewrite count_from_filter. unfold business_days.
    now replace (s - (e + 1) + 1) with (s - e) by lia. }
  rewrite (work_dates_single hol s e _ (pair_dates_days hol s e _ Hn)).
  destruct (business_days hol (e + 1) s) as [| x l] eqn:Hbd.
  - cbn. do 3 f_equal. unfold snap_forward.
    destruct (Np.is_busday hol s) eqn:Hs; [| reflexivity].
    assert (Hin : In s (business_days hol (e + 1) s)).
    { unfold business_days. apply filter_In. split; [| assumption].
      apply In_days. lia. }
    rewrite Hbd in Hin. destruct Hin.
  - rewrite range_nonpositive; [reflexivity |]. cbn [List.length]. lia.
Qed.

Lemma work_dates_reversed_range_witness :
  work_dates [19725] [Day 19729] [Day 19727] None
  = Ok (match business_days [19725] (19727 + 1) 19729 with
        | [] => [Np.Scalar (Day (Np.next_busday [19725] 19729))]
        | _ :: _ => []
        end).
Proof. apply (work_dates_reversed_range [19725] 19729 19727). lia. Defined.

(** *** Roll tokens in [work_dates] *)

Lemma roll_converter_lower (token : string) (r : Np.roll) :
  Np.roll_converter token = Ok r -> lower token = token.
Proof.
  unfold Np.roll_converter.
  repeat match goal with
         | |- context [if String.eqb token ?t then _ else _] =>
             destruct (String.eqb_spec token t) as [-> | _];
             [intros _; reflexivity |]
         end.
  discriminate.
Qed.

Lemma roll_converter_portuguese (token : string) :
  lower token = "posterior" \/ lower token = "anterior" ->
  Np.roll_converter token = Err (InvalidRoll token).
Proof.
  intros H. destruct (roll_converter_Ok_or_invalid token) as [[r Hr] | Hr];
    [| assumption].
  pose proof (roll_converter_lower token r Hr) as Hl. rewrite Hl in H.
  destruct H as [-> | ->]; discriminate Hr.
Qed.

(** A Portuguese token with a capital letter in it is rejected by
    [work_dates], whose comparison is exact, with the roll error that
    carries the token, while [workday], which lowers the token before
    comparing, does not reject it. *)
Theorem work_dates_token_case (hol : list Z) (a b : list datetime64)
    (rolagem : string) :
  lower rolagem = "posterior" \/ lower rolagem = "anterior" ->
  rolagem <> lower rolagem ->
  List.length a = List.length b \/ List.length a = 1%nat \/
  List.length b = 1%nat ->
  work_dates hol a b (Some rolagem) = Err (InvalidRoll rolagem) /\
  forall ds n t, workday hol ds n rolagem <> Err (InvalidRoll t).
Proof.
  intros Hlow Hcap Hlen. split.
  - destruct (broadcast_compatible a b Hlen) as [a' [b' [Hbc _]]].
    unfold work_dates, work_dates_rows, work_dates_pairs. rewrite Hbc.
    cbn [bind].
    assert (Ht : translate (Some rolagem) = Some rolagem).
    { unfold translate.
      destruct (String.eqb_spec rolagem "posterior") as [-> | _];
        [now destruct Hcap |].
      destruct (String.eqb_spec rolagem "anterior") as [-> | _];
        [now destruct Hcap | reflexivity]. }
    rewrite Ht. unfold work_dates_roll, Np.busday_offset.
    now rewrite (roll_converter_portuguese rolagem Hlow).
  - intros ds n t. unfold workday.
    destruct Hlow as [H | H].
    + rewrite H. now apply (busday_offset_valid_roll _ _ _ _ Np.Forward).
    + replace (String.eqb (lower rolagem) "posterior") with false
        by now rewrite H.
      rewrite H. now apply (busday_offset_valid_roll _ _ _ _ Np.Backward).
Qed.

Lemma work_dates_token_case_witness :
  work_dates [19725] [Day 19723] [Day 19727; Day 19730] (Some "Posterior")
    = Err (InvalidRoll "Posterior") /\
  forall ds n t, workday [19725] ds n "Posterior" <> Err (InvalidRoll t).
Proof.
  apply (work_dates_token_case [19725] [Day 19723] [Day 19727; Day 19730]
           "Posterior");
    [left; reflexivity | discriminate | right; left; reflexivity].
Defined.

(** *** Arrays of dates in [workday] *)

Lemma apply_offset_forward_backward hol (r : Np.roll) (n : Z) (x : datetime64) :
  r = Np.Forward \/ r = Np.Backward ->
  exists y,
    Np.apply_business_day_offset hol r n x = Ok y /\
    match x with
    | NaT => y = NaT
    | Day _ => business_date hol y
    end.
Proof.
  intros Hr. destruct x as [| d].
  - exists NaT. destruct Hr as [-> | ->]; split; reflexivity.
  - unfold Np.apply_business_day_offset, Np.apply_business_day_roll.
    destruct Hr as [-> | ->].
    + exists (Day (Np.shift hol (snap_forward hol d) n)). unfold snap_forward.
      split; [now destruct (Np.is_busday hol d) |].
      apply NpFacts.shift_busday, snap_forward_busday.
    + exists (Day (Np.shift hol (snap_backward hol d) n)). unfold snap_backward.
      split; [now destruct (Np.is_busday hol d) |].
      apply NpFacts.shift_busday, snap_backward_busday.
Qed.

Lemma workday_roll_form (hol : list Z) (rolagem : string) :
  lower rolagem = "posterior" \/ lower rolagem = "anterior" \/
  rolagem = "forward" \/ rolagem = "backward" ->
  exists r,
    (r = Np.Forward \/ r = Np.Backward) /\
    forall ds n, workday hol ds n rolagem
                 = mapM (Np.apply_business_day_offset hol r n) ds.
Proof.
  intros [H | [H | [-> | ->]]].
  - exists Np.Forward. split; [now left |]. intros ds n.
    unfold workday. now rewrite H.
  - exists Np.Backward. split; [now right |]. intros ds n.
    unfold workday.
    replace (String.eqb (lower rolagem) "posterior") with false
      by now rewrite H.
    now rewrite H.
  - exists Np.Forward. split; [now left | reflexivity].
  - exists Np.Backward. split; [now right | reflexivity].
Qed.

(** Under a forward or a backward token [workday] never fails on an
    array: it returns an array of the same length in which a missing date
    stays missing and every other date is replaced by a business day, the
    one [workday] returns for that date alone. *)
Theorem workday_array (hol : list Z) (ds : list datetime64) (n : Z)
    (rolagem : string) :
  lower rolagem = "posterior" \/ lower rolagem = "anterior" \/
  rolagem = "forward" \/ rolagem = "backward" ->
  exists rs,
    workday hol ds n rolagem = Ok rs /\
    List.length rs = List.length ds /\
    Forall2 (fun x y =>
               workday hol [x] n rolagem = Ok [y] /\
               match x with
               | NaT => y = NaT
               | Day _ => business_date hol y
               end) ds rs.
Proof.
  intros Hr. destruct (workday_roll_form hol rolagem Hr) as [r [Hfb Hw]].
  assert (H : exists rs,
             mapM (Np.apply_business_day_offset hol r n) ds = Ok rs /\
             Forall2 (fun x y =>
                        workday hol [x] n rolagem = Ok [y] /\
                        match x with
                        | NaT => y = NaT
                        | Day _ => business_date hol y
                        end) ds rs).
  { induction ds as [| x ds [rs [Hrs Hall]]]; [exists []; split; constructor |].
    destruct (apply_offset_forward_backward hol r n x Hfb) as [y [Hy Hxy]].
    exists (y :: rs). split.
    - cbn [mapM]. rewrite Hy, Hrs. reflexivity.
    - constructor; [| assumption]. split; [| assumption].
      rewrite Hw. cbn [mapM]. now rewrite Hy. }
  destruct H as [rs [Hrs Hall]]. exists rs. rewrite Hw.
  split; [assumption |]. split; [| assumption].
  symmetry. exact (Forall2_length Hall).
Qed.

Lemma workday_array_witness :
  exists rs,
    workday [19725] [Day 19728; NaT; Day 19725] (-1) "ANTERIOR" = Ok rs /\
    List.length rs = List.length [Day 19728; NaT; Day 19725] /\
    Forall2 (fun x y =>
               workday [19725] [x] (-1) "ANTERIOR" = Ok [y] /\
               match x with
               | NaT => y = NaT
               | Day _ => business_date [19725] y
               end) [Day 19728; NaT; Day 19725] rs.
Proof.
  apply (workday_array [19725] [Day 19728; NaT; Day 19725] (-1) "ANTERIOR").
  right. left. reflexivity.
Defined.

(** *** Empty arrays in [work_dates] *)

(** With no roll, an empty array against an array of at most one date
    gives the empty result; against a longer array the call fails when the
    two arrays are stacked. *)
Theorem work_dates_empty (hol : list Z) (b : list datetime64) :
  ((List.length b <= 1)%nat ->
   work_dates hol [] b None = Ok [] /\ work_dates hol b [] None = Ok []) /\
  ((1 < List.length b)%nat ->
   work_dates hol [] b None = Err (InhomogeneousShape 0 (List.length b)) /\
   work_dates hol b [] None = Err (InhomogeneousShape (List.length b) 0)).
Proof.
  destruct b as [| x [| y b]]; split; simpl; intros H; try lia;
    split; reflexivity.
Qed.

Lemma work_dates_empty_witness :
  (work_dates [19725] [] [Day 19723] None = Ok [] /\
   work_dates [19725] [Day 19723] [] None = Ok []) /\
  (work_dates [19725] [] [Day 19723; Day 19724] None
     = Err (InhomogeneousShape 0 2) /\
   work_dates [19725] [Day 19723; Day 19724] [] None
     = Err (InhomogeneousShape 2 0)).
Proof.
  split.
  - apply (proj1 (work_dates_empty [19725] [Day 19723])). simpl. lia.
  - apply (proj2 (work_dates_empty [19725] [Day 19723; Day 19724])).
    simpl. lia.
Defined.

(** ** The count as a number of days *)

Lemma business_days_In hol (s e x : Z) :
  In x (business_days hol s e) <-> s <= x <= e /\ Np.is_busday hol x = true.
Proof.
  unfold business_days. rewrite filter_In, In_days.
  split; intros [H1 H2]; (split; [lia | assumption]).
Qed.

(** For an end not before the start, the count is the number of business
    days from the start up to the day before the end: the start is
    counted when it is a business day, the end never.  Saturdays, Sundays
    and holidays are the days not counted. *)
Theorem networkdays_counts_business_days (hol : list Z) (s e : Z) :
  s <= e ->
  networkdays hol [Day s] [Day e]
    = Ok [Z.of_nat (List.length (business_days hol s (e - 1)))] /\
  forall x, In x (business_days hol s (e - 1)) <->
            s <= x < e /\ Np.is_weekend x = false /\ ~ In x hol.
Proof.
  intros Hle. split.
  - rewrite networkdays_forward by assumption.
    rewrite count_from_filter. unfold business_days.
    now replace (e - 1 - s + 1) with (e - s) by lia.
  - intros x. rewrite business_days_In, NpFacts.is_busday_true.
    rewrite <- NpFacts.is_holiday_In.
    destruct (Np.is_holiday hol x); split; intros [H1 [H2 H3]];
      repeat split; try lia; try assumption; try discriminate;
      try (now destruct H3).
Qed.

Lemma networkdays_counts_business_days_witness :
  networkdays [19725] [Day 19721] [Day 19728]
    = Ok [Z.of_nat (List.length (business_days [19725] 19721 (19728 - 1)))] /\
  forall x, In x (business_days [19725] 19721 (19728 - 1)) <->
            19721 <= x < 19728 /\ Np.is_weekend x = false /\ ~ In x [19725].
Proof. apply (networkdays_counts_business_days [19725] 19721 19728). lia. Defined.

(** ** The row of a pair against the inclusive count *)

(** C2.  For a pair with start not after end, let [n] be the inclusive
    count of business days from start to end.  When the end is a business
    day the row [work_dates] builds is exactly the [n] dates
    [workday(start, 0)], ..., [workday(start, n - 1)].  When the end is
    not a business day the row is the [n + 1] dates of offsets 0 to [n],
    and the last of them lies after the end. *)
Theorem work_dates_pair_inclusive (hol : list Z) (s e : Z) :
  s <= e ->
  exists row,
    pair_dates hol (Day s) (Day e) = Ok row /\
    work_dates hol [Day s] [Day e] None = Ok (map Np.Scalar row) /\
    Forall2 (fun k x => workday hol [Day s] k rolagem_default = Ok [x])
            (range (if Np.is_busday hol e
                    then networkdays_inclusive hol s e
                    else networkdays_inclusive hol s e + 1))
            row /\
    (Np.is_busday hol e = false ->
     exists d,
       nth_error row (Z.to_nat (networkdays_inclusive hol s e)) = Some (Day d) /\
       e < d).
Proof.
  intros Hle.
  pose proof (pair_dates_days hol s e _ (networkdays_forward hol s e Hle))
    as Hrow.
  pose proof (pair_dates_forward hol s e Hle) as Hrow'.
  assert (Hn : networkdays_inclusive hol s e
               = Np.count_from hol s (Z.to_nat (e - s))
                 + (if Np.is_busday hol e then 1 else 0)).
  { unfold networkdays_inclusive.
    rewrite business_days_split by assumption.
    rewrite length_app, count_from_filter.
    destruct (Np.is_busday hol e); cbn [List.length]; lia. }
  eexists. split; [exact Hrow |].
  split; [exact (work_dates_single hol s e _ Hrow) |]. split.
  - replace (if Np.is_busday hol e
             then networkdays_inclusive hol s e
             else networkdays_inclusive hol s e + 1)
      with (Np.count_from hol s (Z.to_nat (e - s)) + 1)
      by (rewrite Hn; destruct (Np.is_busday hol e); lia).
    generalize (range (Np.count_from hol s (Z.to_nat (e - s)) + 1)) as ks.
    induction ks as [| k ks IH]; simpl; constructor;
      [apply workday_default_day | exact IH].
  - intros He. rewrite Hrow in Hrow'. injection Hrow' as ->.
    exists (Np.next_busday hol e). split.
    + rewrite Hn, He, count_from_filter, Z.add_0_r, Nat2Z.id.
      rewrite map_app, nth_error_app2 by (rewrite length_map; lia).
      rewrite length_map, Nat.sub_diag. unfold snap_forward.
      now rewrite He.
    + apply NpFacts.next_busday_spec.
Qed.

Lemma work_dates_pair_inclusive_witness :
  exists row,
    pair_dates [] (Day 19723) (Day 19728) = Ok row /\
    work_dates [] [Day 19723] [Day 19728] None = Ok (map Np.Scalar row) /\
    Forall2 (fun k x => workday [] [Day 19723] k rolagem_default = Ok [x])
            (range (if Np.is_busday [] 19728
                    then networkdays_inclusive [] 19723 19728
                    else networkdays_inclusive [] 19723 19728 + 1))
            row /\
    (Np.is_busday [] 19728 = false ->
     exists d,
       nth_error row (Z.to_nat (networkdays_inclusive [] 19723 19728))
         = Some (Day d) /\
       19728 < d).
Proof. apply (work_dates_pair_inclusive [] 19723 19728). lia. Defined.

(** The two cases at work, without holidays.  Monday 2024-01-01 to Friday
    2024-01-05: the inclusive count is 5 and the result is the five dates
    Monday to Friday.  Monday 2024-01-01 to Saturday 2024-01-06: the
    inclusive count is 5 again, the count of the code's [networkdays] is 5
    as well, and the result has six dates, the last one Monday
    2024-01-08. *)
Lemma work_dates_pair_inclusive_example :
  networkdays_inclusive [] 19723 19727 = 5 /\
  work_dates [] [Day 19723] [Day 19727] None
    = Ok (map (fun z => Np.Scalar (Day z))
              [19723; 19724; 19725; 19726; 19727]) /\
  networkdays_inclusive [] 19723 19728 = 5 /\
  networkdays [] [Day 19723] [Day 19728] = Ok [5] /\
  work_dates [] [Day 19723] [Day 19728] None
    = Ok (map (fun z => Np.Scalar (Day z))
              [19723; 19724; 19725; 19726; 19727; 19730]).
Proof. repeat split. Qed.
